(** * remix-jokes: the request handlers of the new-joke and login routes

    A shallow embedding of the server-side code of two route modules,
    [app/routes/jokes/new.tsx] (loader, field validators, action) and
    [app/routes/login.tsx] (field validators, [validateUrl], action).

    JavaScript values are an inductive type, strings are [string] (one
    character of a Rocq string stands for one code unit, so [String.length]
    is the [length] property), and the asynchronous handlers are programs of
    a small free monad whose operations are the calls the handlers [await]:
    the session helpers, the ORM client and [request.formData()].  Running a
    program against an arbitrary environment gives its outcome together with
    the list of calls it made, in order. *)

From Stdlib Require Import String Ascii List Arith Lia Bool ZArith.
From ExtLib Require Import Structures.Monad.
Import ListNotations.
Import MonadNotation.
Local Open Scope string_scope.
Local Open Scope monad_scope.
Local Set Warnings "-register-all".

(** ** JavaScript values *)

(** The values the handlers see.  A form entry is a string or a [File];
    [form.get] answers [null] for a missing key; parameters typed [any] or
    [unknown] range over everything. *)
Inductive value : Type :=
| VUndefined
| VNull
| VBool (b : bool)
| VNumber (n : Z)
| VString (s : string)
| VFile (filename : string)
| VObject (props : list (string * value)).

(** The [typeof] operator. *)
Definition typeof (v : value) : string :=
  match v with
  | VUndefined => "undefined"
  | VNull => "object"
  | VBool _ => "boolean"
  | VNumber _ => "number"
  | VString _ => "string"
  | VFile _ => "object"
  | VObject _ => "object"
  end.

(** [Boolean(v)]: the truthiness of a value. *)
Definition Boolean (v : value) : bool :=
  match v with
  | VUndefined => false
  | VNull => false
  | VBool b => b
  | VNumber n => negb (Z.eqb n 0)
  | VString s => negb (s =? "")
  | VFile _ => true
  | VObject _ => true
  end.

(** [Object.values(o)] and [Array.prototype.some]. *)
Definition Object_values (o : list (string * value)) : list value :=
  map snd o.

Definition some {A : Type} (f : A -> bool) (l : list A) : bool :=
  existsb f l.

(** Property read [o.k]: [undefined] when the property is missing. *)
Fixpoint lookup (k : string) (props : list (string * value)) : value :=
  match props with
  | [] => VUndefined
  | (k', v) :: rest => if k' =? k then v else lookup k rest
  end.

Definition prop (k : string) (o : value) : value :=
  match o with
  | VObject props => lookup k props
  | _ => VUndefined
  end.

(** [Array.prototype.includes] on an array of strings, asked about a
    string. *)
Definition includes (l : list string) (s : string) : bool :=
  existsb (String.eqb s) l.

(** A parameter with a default, [f(x = d)]: the default stands in for an
    argument that is [undefined], and for no other. *)
Definition default_arg (d arg : value) : value :=
  match arg with
  | VUndefined => d
  | _ => arg
  end.

(** A nullable result ([T | null]) seen as a value. *)
Definition nullable {A : Type} (inj : A -> value) (o : option A) : value :=
  match o with
  | Some a => inj a
  | None => VNull
  end.

(** ** Requests, form data and responses *)

Record Request : Type := mkRequest {
  req_method : string;
  req_url : string;
  req_headers : list (string * string);
  req_body : string
}.

(** A [FormData]: its entries in order. *)
Definition FormData : Type := list (string * value).

(** [form.get(name)]: the first entry of that name, or [null]. *)
Fixpoint FormData_get (name : string) (form : FormData) : value :=
  match form with
  | [] => VNull
  | (k, v) :: rest => if k =? name then v else FormData_get name rest
  end.

(** A [Response]; [body] keeps the data handed to [json] as a value (what
    is sent is its JSON text, in which a property whose value is
    [undefined] does not appear). *)
Record Response : Type := mkResponse {
  status : nat;
  headers : list (string * string);
  body : value
}.

(** [json(data, {status})] and [redirect(url, {headers})] of
    [@remix-run/node]. *)
Definition json (data : value) (st : nat) : Response :=
  mkResponse st [("Content-Type", "application/json; charset=utf-8")] data.

Definition redirect (url : string) (init : list (string * string)) : Response :=
  mkResponse 302 (init ++ [("Location", url)]) VNull.

(** ** Records of the store *)

Record User : Type := mkUser {
  user_id : string;
  user_username : string;
  user_passwordHash : string
}.

Record Joke : Type := mkJoke {
  joke_id : string;
  joke_jokesterId : string;
  joke_name : string;
  joke_content : string
}.

(** ** Awaited calls *)

(** The calls a handler awaits, each with the type of its answer. *)
Inductive call : Type :=
| CGetUserId (request : Request)
| CFormData (request : Request)
| CJokeCreate (name content jokesterId : string)
| CUserFindFirst (username : string)
| CLogin (username password : string)
| CRegister (username password : string)
| CCommitSession (userId : string).

Definition answer (c : call) : Type :=
  match c with
  | CGetUserId _ => option string
  | CFormData _ => FormData
  | CJokeCreate _ _ _ => Joke
  | CUserFindFirst _ => option User
  | CLogin _ _ => option User
  | CRegister _ _ => option User
  | CCommitSession _ => string
  end.

(** What a [throw] carries: a [Response] (caught by the route's
    [CatchBoundary]) or an error. *)
Inductive thrown : Type :=
| ThrownResponse (r : Response)
| ThrownError (message : string).

(** Programs: return, throw, write to the console, or await a call and go
    on with its answer. *)
Inductive Prog (A : Type) : Type :=
| Ret (a : A)
| Throw (e : thrown)
| Log (v : value) (k : Prog A)
| Await (c : call) (k : answer c -> Prog A).

Arguments Ret {A} a.
Arguments Throw {A} e.
Arguments Log {A} v k.
Arguments Await {A} c k.

Fixpoint Prog_bind {A B : Type} (p : Prog A) (f : A -> Prog B) : Prog B :=
  match p with
  | Ret a => f a
  | Throw e => Throw e
  | Log v k => Log v (Prog_bind k f)
  | Await c k => Await c (fun x => Prog_bind (k x) f)
  end.

#[global] Instance Monad_Prog : Monad Prog :=
  {| ret := @Ret; bind := @Prog_bind |}.

Definition await (c : call) : Prog (answer c) := Await c Ret.

Definition console_log (v : value) : Prog unit := Log v (Ret tt).

(** ** Running a program *)

Inductive outcome (A : Type) : Type :=
| Returned (a : A)
| Raised (e : thrown).

Arguments Returned {A} a.
Arguments Raised {A} e.

Inductive event : Type :=
| EvLog (v : value)
| EvCall (c : call).

Record Run (W A : Type) : Type := mkRun {
  result : outcome A;
  final : W;
  trace : list event
}.

Arguments mkRun {W A} result final trace.
Arguments result {W A} r.
Arguments final {W A} r.
Arguments trace {W A} r.

Section Running.

(** The environment: a state and, for each call, its answer (or what it
    throws) and the state after it. *)
Variable World : Type.
Variable oracle : forall c : call, World -> outcome (answer c) * World.

Definition after {A : Type} (e : event) (r : Run World A) : Run World A :=
  mkRun (result r) (final r) (e :: trace r).

Definition prepend {A : Type} (t : list event) (r : Run World A)
  : Run World A :=
  mkRun (result r) (final r) (t ++ trace r).

Fixpoint run {A : Type} (p : Prog A) (w : World) : Run World A :=
  match p with
  | Ret a => mkRun (Returned a) w []
  | Throw e => mkRun (Raised e) w []
  | Log v k => after (EvLog v) (run k w)
  | Await c k =>
      match oracle c w with
      | (Returned x, w') => after (EvCall c) (run (k x) w')
      | (Raised e, w') => mkRun (Raised e) w' [EvCall c]
      end
  end.

End Running.

Arguments after {World A} e r.
Arguments prepend {World A} t r.
Arguments run {World} oracle {A} p w.

(** Counting the calls of a trace that create a joke, a user, or read the
    form. *)
Definition is_joke_create (e : event) : bool :=
  match e with
  | EvCall (CJokeCreate _ _ _) => true
  | _ => false
  end.

Definition is_register (e : event) : bool :=
  match e with
  | EvCall (CRegister _ _) => true
  | _ => false
  end.

Definition is_form_read (e : event) : bool :=
  match e with
  | EvCall (CFormData _) => true
  | _ => false
  end.

Definition count (f : event -> bool) (t : list event) : nat :=
  List.length (filter f t).

(** ** utils/session.server and utils/db.server *)

(** [getUserId], [login], [register] and the ORM calls are awaited as they
    are; their answers come from the environment. *)
Definition getUserId (request : Request) : Prog (option string) :=
  await (CGetUserId request).

Definition login (username password : string) : Prog (option User) :=
  await (CLogin username password).

Definition register (username password : string) : Prog (option User) :=
  await (CRegister username password).

Definition db_joke_create (name content jokesterId : string) : Prog Joke :=
  await (CJokeCreate name content jokesterId).

Definition db_user_findFirst (username : string) : Prog (option User) :=
  await (CUserFindFirst username).

Definition formData (request : Request) : Prog FormData :=
  await (CFormData request).

(** Modelled from the spec: [requireUserId] of [utils/session.server] is
    not among the sources.  The spec's SessionService gives
    [requireUserId(request) -> UserId], failing with 401 if the identity
    [getCurrentUserId(request) -> UserId | none] is absent. *)
Definition requireUserId (request : Request) : Prog string :=
  userId <- getUserId request ;;
  match userId with
  | Some id => ret id
  | None => Throw (ThrownResponse (mkResponse 401 [] (VString "Unauthorized")))
  end.

(** Modelled from the spec: [createUserSession] of [utils/session.server]
    is not among the sources.  The spec's SessionService gives
    [createSession(userId, redirectTarget) -> Response], which sets the
    session cookie and issues a redirect. *)
Definition createUserSession (userId redirectTo : string) : Prog Response :=
  cookie <- await (CCommitSession userId) ;;
  ret (redirect redirectTo [("Set-Cookie", cookie)]).

(** ** Elements and the operators of the components *)

(** What a component returns: an element (a tag or a component, its props
    in the order written, its children), a piece of text, or the value of
    an expression in braces ([null] and [undefined] render nothing). *)
Inductive node : Type :=
| Element (type : string) (props : list (string * value)) (children : list node)
| Text (s : string)
| Expr (v : value).

(** [a || b], [a ?? b] and [v === 'literal']. *)
Definition js_or (a b : value) : value :=
  if Boolean a then a else b.

Definition nullish (a b : value) : value :=
  match a with
  | VUndefined => b
  | VNull => b
  | _ => a
  end.

Definition strict_equals (v : value) (s : string) : bool :=
  match v with
  | VString t => t =? s
  | _ => false
  end.

(** An object pattern can take a value apart unless the value is [null]
    or [undefined], which is a [TypeError]. *)
Definition destructurable (v : value) : bool :=
  match v with
  | VUndefined => false
  | VNull => false
  | _ => true
  end.

(** [searchParams.get(name)]: the first value of that name, or [null]. *)
Fixpoint URLSearchParams_get (name : string) (params : list (string * string))
  : value :=
  match params with
  | [] => VNull
  | (k, v) :: rest => if k =? name then VString v else URLSearchParams_get name rest
  end.

(** What [useActionData] gives for a response made by [json(data)]: the
    data after [JSON.stringify] and [JSON.parse].  A property whose value
    is [undefined] is dropped, a [File] has no property of its own to
    keep. *)
Fixpoint JSON_roundtrip (v : value) : value :=
  match v with
  | VObject props =>
      VObject
        ((fix entries (ps : list (string * value)) : list (string * value) :=
            match ps with
            | [] => []
            | (k, x) :: rest =>
                match x with
                | VUndefined => entries rest
                | _ => (k, JSON_roundtrip x) :: entries rest
                end
            end) props)
  | VFile _ => VObject []
  | _ => v
  end.

(** Looking into a tree: an element and all that is below it, the value
    of a prop, the first element with a given id or name, the radio
    button of a given value. *)
Fixpoint descendants (n : node) : list node :=
  n :: match n with
       | Element _ _ children => flat_map descendants children
       | _ => []
       end.

Definition attr (k : string) (n : node) : value :=
  match n with
  | Element _ props _ => lookup k props
  | _ => VUndefined
  end.

Definition has_attr (k v : string) (n : node) : bool :=
  strict_equals (attr k n) v.

Definition by_id (id : string) (root : node) : option node :=
  find (has_attr "id" id) (descendants root).

Definition by_name (name : string) (root : node) : option node :=
  find (has_attr "name" name) (descendants root).

Definition radio (v : string) (root : node) : option node :=
  find (fun n => has_attr "type" "radio" n && has_attr "value" v n)
       (descendants root).

(** The value of prop [k] of the field named [name], and whether the
    radio button of value [v] is preselected. *)
Definition field_attr (name k : string) (root : node) : value :=
  match by_name name root with
  | Some n => attr k n
  | None => VUndefined
  end.

Definition radio_checked (v : string) (root : node) : value :=
  match radio v root with
  | Some n => attr "defaultChecked" n
  | None => VUndefined
  end.

(** ** app/routes/jokes/new.tsx *)

Module JokesNewRoute.

Definition loader (request : Request) : Prog Response :=
  userId <- getUserId request ;;
  if negb (Boolean (nullable VString userId))
  then Throw (ThrownResponse (mkResponse 401 [] (VString "Unauthorized")))
  else ret (json (VObject []) 200).

Definition validateJokeName (name : string) : value :=
  if (String.length name <? 3)%nat
  then VString "That joke's name is too short"
  else VUndefined.

Definition validateJokeContent (content : string) : value :=
  if (String.length content <? 10)%nat
  then VString "That joke is too short"
  else VUndefined.

Definition badRequest (data : value) : Response := json data 400.

(** The [typeof ... !== 'string'] guard is the [match]: a value has type
    ["string"] exactly when it is a [VString] (lemma [typeof_string]),
    and past the guard [name] and [content] are strings. *)
Definition action (request : Request) : Prog Response :=
  userId <- requireUserId request ;;
  form <- formData request ;;
  let name := FormData_get "name" form in
  let content := FormData_get "content" form in
  match name, content with
  | VString name, VString content =>
      let fieldErrors :=
        [("name", validateJokeName name);
         ("content", validateJokeContent content)] in
      let fields :=
        [("name", VString name); ("content", VString content)] in
      if some Boolean (Object_values fieldErrors)
      then ret (badRequest (VObject [("fieldErrors", VObject fieldErrors);
                                     ("fields", VObject fields)]))
      else
        joke <- db_joke_create name content userId ;;
        ret (redirect ("/jokes/" ++ joke_id joke) [])
  | _, _ =>
      ret (badRequest
             (VObject [("formError", VString "Form not submitted correctly.")]))
  end.

(** The form the component returns, as a function of the five values the
    component takes out of the action data. *)
Definition NewJokeRoute_form
    (nameValue contentValue nameError contentError formError : value) : node :=
  Element "div" []
    [Element "p" [] [Text "Add your own hilarious joke"];
     Element "Form" [("method", VString "post")]
       [Element "div" []
          [Element "label" []
             [Text "Name:"; Text " ";
              Element "input"
                [("defaultValue", nameValue);
                 ("type", VString "text");
                 ("name", VString "name");
                 ("aria-invalid", js_or (VBool (Boolean nameError)) VUndefined);
                 ("aria-errormessage",
                  if Boolean nameError then VString "name-error"
                  else VUndefined)]
                []];
           if Boolean nameError
           then Element "p"
                  [("className", VString "form-validation-error");
                   ("role", VString "alert");
                   ("id", VString "name-error")]
                  [Expr nameError]
           else Expr VNull];
        Element "div" []
          [Element "label" []
             [Text "Content:"; Text " ";
              Element "textarea"
                [("name", VString "content");
                 ("defaultValue", contentValue);
                 ("aria-invalid",
                  js_or (VBool (Boolean contentError)) VUndefined);
                 ("aria-errormessage",
                  if Boolean contentError then VString "content-error"
                  else VUndefined)]
                []];
           if Boolean contentError
           then Element "p"
                  [("className", VString "form-validation-error");
                   ("role", VString "alert");
                   ("id", VString "content-error")]
                  [Expr contentError]
           else Expr VNull];
        Element "div" []
          [if Boolean formError
           then Element "p"
                  [("className", VString "form-validation-error");
                   ("role", VString "alert")]
                  [Expr formError]
           else Expr VNull;
           Element "button"
             [("type", VString "submit"); ("className", VString "button")]
             [Text "Add"]]]].

(** [<JokeDisplay joke={{name, content}} isOwner canDelete={false}/>]. *)
Definition JokeDisplay_optimistic (name content : string) : node :=
  Element "JokeDisplay"
    [("joke", VObject [("name", VString name); ("content", VString content)]);
     ("isOwner", VBool true);
     ("canDelete", VBool false)]
    [].

(** The component, given what its two hooks answer: the form data of the
    submission in flight ([useTransition().submission], if any) and the
    action data ([useActionData()], JSON data or [undefined]).  The
    destructuring at its head comes first and throws on a [fieldErrors] or
    [fields] that is [null]. *)
Definition NewJokeRoute (submission : option FormData) (actionData : value)
  : outcome node :=
  let data := nullish actionData (VObject []) in
  let fieldErrors := default_arg (VObject []) (prop "fieldErrors" data) in
  let fields := default_arg (VObject []) (prop "fields" data) in
  if negb (destructurable fieldErrors) || negb (destructurable fields)
  then Raised (ThrownError "TypeError")
  else
    let nameError := prop "name" fieldErrors in
    let contentError := prop "content" fieldErrors in
    let nameValue := prop "name" fields in
    let contentValue := prop "content" fields in
    let formError := prop "formError" data in
    let form :=
      NewJokeRoute_form nameValue contentValue nameError contentError
                        formError in
    match submission with
    | Some formData =>
        match FormData_get "name" formData,
              FormData_get "content" formData with
        | VString name, VString content =>
            if negb (Boolean (validateJokeName name))
               && negb (Boolean (validateJokeContent content))
            then Returned (JokeDisplay_optimistic name content)
            else Returned form
        | _, _ => Returned form
        end
    | None => Returned form
    end.

(** The catch boundary, given what [useCatch()] answers; for a status
    other than 401 the function ends without a [return]. *)
Definition CatchBoundary (caught : Response) : node :=
  if Nat.eqb (status caught) 401
  then Element "div" [("className", VString "error-container")]
         [Element "p" [] [Text "You must be logged in to create a joke."];
          Element "Link" [("to", VString "/login")] [Text "Login"]]
  else Expr VUndefined.

End JokesNewRoute.

(** ** app/routes/login.tsx *)

Module LoginRoute.

Definition validateUsername (username : value) : value :=
  match username with
  | VString s =>
      if (String.length s <? 3)%nat
      then VString "Usernames must be at least 3 characters long"
      else VUndefined
  | _ => VString "Usernames must be at least 3 characters long"
  end.

Definition validatePassword (password : value) : value :=
  match password with
  | VString s =>
      if (String.length s <? 6)%nat
      then VString "Passwords must be at least 6 characters long"
      else VUndefined
  | _ => VString "Passwords must be at least 6 characters long"
  end.

Definition urls : list string := ["/jokes"; "/"; "https://remix.run"].

(** [validateUrl(url: any = '/jokes')]; [includes] compares with
    SameValueZero, which never equates a string of [urls] with a value
    that is not a string. *)
Definition validateUrl (arg : value) : Prog string :=
  let url := default_arg (VString "/jokes") arg in
  console_log url ;;
  match url with
  | VString s => if includes urls s then ret s else ret "/jokes"
  | _ => ret "/jokes"
  end.

Definition badRequest (data : value) : Response := json data 400.

Definition action (request : Request) : Prog Response :=
  form <- formData request ;;
  let loginType := FormData_get "loginType" form in
  let username := FormData_get "username" form in
  let password := FormData_get "password" form in
  redirectTo <- validateUrl (FormData_get "redirectTo" form) ;;
  match loginType, username, password with
  | VString loginType, VString username, VString password =>
      let fields :=
        [("loginType", VString loginType);
         ("username", VString username);
         ("password", VString password)] in
      let fieldErrors :=
        [("username", validateUsername (VString username));
         ("password", validatePassword (VString password))] in
      if some Boolean (Object_values fieldErrors)
      then ret (badRequest (VObject [("fieldErrors", VObject fieldErrors);
                                     ("fields", VObject fields)]))
      else if loginType =? "login" then
        user <- login username password ;;
        match user with
        | None =>
            ret (badRequest
                   (VObject [("fields", VObject fields);
                             ("formError",
                              VString "Username/Password combination is incorrect.")]))
        | Some user => createUserSession (user_id user) redirectTo
        end
      else if loginType =? "register" then
        userExists <- db_user_findFirst username ;;
        match userExists with
        | Some _ =>
            ret (badRequest
                   (VObject [("fields", VObject fields);
                             ("formError",
                              VString ("User with username " ++ username
                                       ++ " already exists"))]))
        | None =>
            user <- register username password ;;
            match user with
            | None =>
                ret (badRequest
                       (VObject [("fields", VObject fields);
                                 ("formError", VString "Not implemented")]))
            | Some user => createUserSession (user_id user) redirectTo
            end
        end
      else
        ret (badRequest
               (VObject [("fields", VObject fields);
                         ("formError", VString "Login type invalid")]))
  | _, _, _ =>
      ret (badRequest
             (VObject [("formError", VString "Form not submitted correctly.")]))
  end.

(** The page the component returns, as a function of the hidden field's
    value and of the seven values taken out of the action data. *)
Definition Login_page
    (redirectTo loginType usernameValue passwordValue
     usernameError passwordError formError : value) : node :=
  Element "div" [("className", VString "container")]
    [Element "div" [("className", VString "content"); ("data-light", VString "")]
       [Element "h1" [] [Text "Login"];
        Element "Form" [("method", VString "post")]
          [Element "input"
             [("type", VString "hidden");
              ("name", VString "redirectTo");
              ("value", redirectTo)]
             [];
           Element "fieldset" []
             [Element "legend" [("className", VString "sr-only")]
                [Text "Login or Register?"];
              Element "label" []
                [Element "input"
                   [("type", VString "radio");
                    ("name", VString "loginType");
                    ("value", VString "login");
                    ("defaultChecked",
                     js_or (VBool (negb (Boolean loginType)))
                           (VBool (strict_equals loginType "login")))]
                   [];
                 Text " "; Text "Login"];
              Element "label" []
                [Element "input"
                   [("type", VString "radio");
                    ("name", VString "loginType");
                    ("value", VString "register");
                    ("defaultChecked",
                     VBool (strict_equals loginType "register"))]
                   [];
                 Text " "; Text "Register"]];
           Element "div" []
             [Element "label" [("htmlFor", VString "username-input")]
                [Text "Username"];
              Element "input"
                [("type", VString "text");
                 ("id", VString "username-input");
                 ("name", VString "username");
                 ("defaultValue", usernameValue);
                 ("aria-invalid", VBool (Boolean usernameError));
                 ("aria-errormessage",
                  if Boolean usernameError then VString "username-error"
                  else VUndefined)]
                [];
              if Boolean usernameError
              then Element "p"
                     [("className", VString "form-validation-error");
                      ("role", VString "alert");
                      ("id", VString "username-error")]
                     [Expr usernameError]
              else Expr VNull];
           Element "div" []
             [Element "label" [("htmlFor", VString "password-input")]
                [Text "Password"];
              Element "input"
                [("id", VString "password-input");
                 ("name", VString "password");
                 ("defaultValue", passwordValue);
                 ("type", VString "password");
                 ("aria-invalid",
                  js_or (VBool (Boolean passwordError)) VUndefined);
                 ("aria-errormessage",
                  if Boolean passwordError then VString "password-error"
                  else VUndefined)]
                [];
              if Boolean passwordError
              then Element "p"
                     [("className", VString "form-validation-error");
                      ("role", VString "alert");
                      ("id", VString "password-error")]
                     [Expr passwordError]
              else Expr VNull];
           Element "div" [("id", VString "form-error-message")]
             [if Boolean formError
              then Element "p"
                     [("className", VString "form-validation-error");
                      ("role", VString "alert")]
                     [Expr formError]
              else Expr VNull];
           Element "button"
             [("type", VString "submit"); ("className", VString "button")]
             [Text "Submit"]]];
     Element "div" [("className", VString "links")]
       [Element "ul" []
          [Element "li" [] [Element "Link" [("to", VString "/")] [Text "Home"]];
           Element "li" []
             [Element "Link" [("to", VString "/jokes")] [Text "Jokes"]]]]].

(** The component, given what its two hooks answer: the query of the page
    ([useSearchParams()]) and the action data ([useActionData()], JSON
    data or [undefined]). *)
Definition Login (searchParams : list (string * string)) (actionData : value)
  : outcome node :=
  let data := nullish actionData (VObject []) in
  let fieldErrors := default_arg (VObject []) (prop "fieldErrors" data) in
  let fields := default_arg (VObject []) (prop "fields" data) in
  if negb (destructurable fieldErrors) || negb (destructurable fields)
  then Raised (ThrownError "TypeError")
  else
    let usernameError := prop "username" fieldErrors in
    let passwordError := prop "password" fieldErrors in
    let usernameValue := prop "username" fields in
    let passwordValue := prop "password" fields in
    let loginType := prop "loginType" fields in
    let formError := prop "formError" data in
    Returned
      (Login_page
         (nullish (URLSearchParams_get "redirectTo" searchParams) VUndefined)
         loginType usernameValue passwordValue
         usernameError passwordError formError).

End LoginRoute.

(** ** A sample environment *)

(** A small site: who is logged in, the posted form, the two tables, and
    whether registration is open.  It answers every call without
    throwing. *)
Record Site : Type := mkSite {
  site_user : option string;
  site_form : FormData;
  site_users : list User;
  site_jokes : list Joke;
  site_open : bool
}.

Definition sample_hash (password : string) : string := "hash:" ++ password.

Definition fresh_id (prefix : string) (n : nat) : string :=
  prefix ++ string_of_list_ascii (repeat "i"%char (S n)).

Definition site_oracle (c : call) (w : Site) : outcome (answer c) * Site :=
  match c with
  | CGetUserId _ => (Returned (site_user w), w)
  | CFormData _ => (Returned (site_form w), w)
  | CJokeCreate name content jokesterId =>
      let joke :=
        mkJoke (fresh_id "joke-" (List.length (site_jokes w)))
               jokesterId name content in
      (Returned joke,
       mkSite (site_user w) (site_form w) (site_users w)
              (site_jokes w ++ [joke]) (site_open w))
  | CUserFindFirst username =>
      (Returned (find (fun u => user_username u =? username) (site_users w)), w)
  | CLogin username password =>
      (Returned (find (fun u => (user_username u =? username)
                                && (user_passwordHash u =? sample_hash password))
                      (site_users w)), w)
  | CRegister username password =>
      let user :=
        mkUser (fresh_id "user-" (List.length (site_users w)))
               username (sample_hash password) in
      if site_open w
      then (Returned (Some user),
            mkSite (site_user w) (site_form w) (site_users w ++ [user])
                   (site_jokes w) (site_open w))
      else (Returned None, w)
  | CCommitSession userId => (Returned ("RJ_session=" ++ userId), w)
  end.

Definition post : Request :=
  mkRequest "POST" "/jokes/new" [] "".

Definition visit : Request :=
  mkRequest "GET" "/jokes/new" [] "".

Definition post_login : Request :=
  mkRequest "POST" "/login" [] "".

Definition kody : User := mkUser "user-i" "kody" (sample_hash "twixrox").

Definition site (user : option string) (form : FormData) : Site :=
  mkSite user form [kody] [] true.

Definition closed_site (form : FormData) : Site :=
  mkSite None form [kody] [] false.

Definition auth_form (loginType username password : string) : FormData :=
  [("redirectTo", VString "https://evil.example");
   ("loginType", VString loginType);
   ("username", VString username);
   ("password", VString password)].

(** ** Values: typeof, messages *)

(** A validator's answer is either a message (a non-empty string) or
    [undefined]. *)
Definition is_message (v : value) : Prop :=
  exists m : string, v = VString m /\ m <> "".

(** [needle] occurs in [hay]. *)
Definition mentions (needle hay : string) : Prop :=
  exists pre post : string, hay = pre ++ needle ++ post.

(** ** Submissions *)

(** The new-joke form as the action sorts it: accepted (both fields are
    strings and long enough), malformed (a field is not a string), or
    invalid (both are strings and one is too short). *)
Definition joke_accepted (form : FormData) (name content : string) : Prop :=
  FormData_get "name" form = VString name
  /\ FormData_get "content" form = VString content
  /\ 3 <= String.length name
  /\ 10 <= String.length content.

Definition joke_malformed (form : FormData) : Prop :=
  typeof (FormData_get "name" form) <> "string"
  \/ typeof (FormData_get "content" form) <> "string".

Definition joke_invalid (form : FormData) (name content : string) : Prop :=
  FormData_get "name" form = VString name
  /\ FormData_get "content" form = VString content
  /\ (String.length name < 3 \/ String.length content < 10).

(** The login form with its three fields present as strings. *)
Definition auth_fields (form : FormData) (loginType username password : string)
  : Prop :=
  FormData_get "loginType" form = VString loginType
  /\ FormData_get "username" form = VString username
  /\ FormData_get "password" form = VString password.

(** The [fields] object the login action echoes. *)
Definition auth_echo (loginType username password : string) : value :=
  VObject [("loginType", VString loginType);
           ("username", VString username);
           ("password", VString password)].

(** An environment whose store is down: a user is logged in and the form
    is read, every other call throws. *)
Definition failing_store (c : call) (w : unit) : outcome (answer c) * unit :=
  match c with
  | CGetUserId _ => (Returned (Some "user-i"), w)
  | CFormData _ =>
      (Returned [("name", VString "abc"); ("content", VString "1234567890");
                 ("loginType", VString "login"); ("username", VString "kody");
                 ("password", VString "twixrox")], w)
  | _ => (Raised (ThrownError "connection lost"), w)
  end.

(** ** The paths of the new-joke action *)

Section NewJokePaths.

Context {World : Type}.
Variable oracle : forall c : call, World -> outcome (answer c) * World.
Variable request : Request.

(** The payloads of the two rejections. *)
Definition joke_malformed_payload : value :=
  VObject [("formError", VString "Form not submitted correctly.")].

Definition joke_invalid_payload (name content : string) : value :=
  VObject
    [("fieldErrors",
      VObject [("name", JokesNewRoute.validateJokeName name);
               ("content", JokesNewRoute.validateJokeContent content)]);
     ("fields",
      VObject [("name", VString name); ("content", VString content)])].

(** Every way a run of the action from [w] can go, one constructor for
    each exit of the source: a call that throws, the missing user, the
    two rejections, the redirect. *)
Inductive new_joke_path (w : World) : Run World Response -> Prop :=
| path_session_throws (e : thrown) (w1 : World) :
    oracle (CGetUserId request) w = (Raised e, w1) ->
    new_joke_path w (mkRun (Raised e) w1 [EvCall (CGetUserId request)])
| path_no_user (w1 : World) :
    oracle (CGetUserId request) w = (Returned None, w1) ->
    new_joke_path w
      (mkRun (Raised (ThrownResponse
                        (mkResponse 401 [] (VString "Unauthorized"))))
             w1 [EvCall (CGetUserId request)])
| path_form_throws (userId : string) (e : thrown) (w1 w2 : World) :
    oracle (CGetUserId request) w = (Returned (Some userId), w1) ->
    oracle (CFormData request) w1 = (Raised e, w2) ->
    new_joke_path w
      (mkRun (Raised e) w2
             [EvCall (CGetUserId request); EvCall (CFormData request)])
| path_malformed (userId : string) (form : FormData) (w1 w2 : World) :
    oracle (CGetUserId request) w = (Returned (Some userId), w1) ->
    oracle (CFormData request) w1 = (Returned form, w2) ->
    joke_malformed form ->
    new_joke_path w
      (mkRun (Returned (JokesNewRoute.badRequest joke_malformed_payload)) w2
             [EvCall (CGetUserId request); EvCall (CFormData request)])
| path_invalid (userId : string) (form : FormData) (w1 w2 : World)
    (name content : string) :
    oracle (CGetUserId request) w = (Returned (Some userId), w1) ->
    oracle (CFormData request) w1 = (Returned form, w2) ->
    joke_invalid form name content ->
    new_joke_path w
      (mkRun (Returned (JokesNewRoute.badRequest
                          (joke_invalid_payload name content))) w2
             [EvCall (CGetUserId request); EvCall (CFormData request)])
| path_store_throws (userId : string) (form : FormData) (w1 w2 w3 : World)
    (name content : string) (e : thrown) :
    oracle (CGetUserId request) w = (Returned (Some userId), w1) ->
    oracle (CFormData request) w1 = (Returned form, w2) ->
    joke_accepted form name content ->
    oracle (CJokeCreate name content userId) w2 = (Raised e, w3) ->
    new_joke_path w
      (mkRun (Raised e) w3
             [EvCall (CGetUserId request); EvCall (CFormData request);
              EvCall (CJokeCreate name content userId)])
| path_created (userId : string) (form : FormData) (w1 w2 w3 : World)
    (name content : string) (joke : Joke) :
    oracle (CGetUserId request) w = (Returned (Some userId), w1) ->
    oracle (CFormData request) w1 = (Returned form, w2) ->
    joke_accepted form name content ->
    oracle (CJokeCreate name content userId) w2 = (Returned joke, w3) ->
    new_joke_path w
      (mkRun (Returned (redirect ("/jokes/" ++ joke_id joke) [])) w3
             [EvCall (CGetUserId request); EvCall (CFormData request);
              EvCall (CJokeCreate name content userId)]).

End NewJokePaths.

(** ** The paths of the login action *)

Definition auth_malformed (form : FormData) : Prop :=
  typeof (FormData_get "loginType" form) <> "string"
  \/ typeof (FormData_get "username" form) <> "string"
  \/ typeof (FormData_get "password" form) <> "string".

(** The three fields are strings and both validators let them pass. *)
Definition auth_valid (form : FormData) (loginType username password : string)
  : Prop :=
  auth_fields form loginType username password
  /\ LoginRoute.validateUsername (VString username) = VUndefined
  /\ LoginRoute.validatePassword (VString password) = VUndefined.

Definition auth_invalid (form : FormData) (loginType username password : string)
  : Prop :=
  auth_fields form loginType username password
  /\ (is_message (LoginRoute.validateUsername (VString username))
      \/ is_message (LoginRoute.validatePassword (VString password))).

(** The payloads of the rejections. *)
Definition auth_invalid_payload (loginType username password : string)
  : value :=
  VObject
    [("fieldErrors",
      VObject [("username", LoginRoute.validateUsername (VString username));
               ("password", LoginRoute.validatePassword (VString password))]);
     ("fields", auth_echo loginType username password)].

Definition auth_form_error (loginType username password message : string)
  : value :=
  VObject [("fields", auth_echo loginType username password);
           ("formError", VString message)].

Section LoginPaths.

Context {World : Type}.
Variable oracle : forall c : call, World -> outcome (answer c) * World.
Variable request : Request.

(** The two events every run starts with once the form is read: the read
    itself and the console line of [validateUrl]. *)
Definition opening (form : FormData) : list event :=
  [EvCall (CFormData request);
   EvLog (default_arg (VString "/jokes") (FormData_get "redirectTo" form))].

(** Every way a run of the login action from [w] can go, one constructor
    for each exit of the source. *)
Inductive login_path (w : World) : Run World Response -> Prop :=
| path_read_throws (e : thrown) (w1 : World) :
    oracle (CFormData request) w = (Raised e, w1) ->
    login_path w (mkRun (Raised e) w1 [EvCall (CFormData request)])
| path_auth_malformed (form : FormData) (w1 : World) :
    oracle (CFormData request) w = (Returned form, w1) ->
    auth_malformed form ->
    login_path w
      (mkRun (Returned (LoginRoute.badRequest joke_malformed_payload)) w1
             (opening form))
| path_auth_invalid (form : FormData) (w1 : World)
    (loginType username password : string) :
    oracle (CFormData request) w = (Returned form, w1) ->
    auth_invalid form loginType username password ->
    login_path w
      (mkRun (Returned (LoginRoute.badRequest
                          (auth_invalid_payload loginType username password)))
             w1 (opening form))
| path_type_invalid (form : FormData) (w1 : World)
    (loginType username password : string) :
    oracle (CFormData request) w = (Returned form, w1) ->
    auth_valid form loginType username password ->
    loginType <> "login" ->
    loginType <> "register" ->
    login_path w
      (mkRun (Returned (LoginRoute.badRequest
                          (auth_form_error loginType username password
                                           "Login type invalid")))
             w1 (opening form))
| path_login_throws (form : FormData) (w1 w2 : World)
    (username password : string) (e : thrown) :
    oracle (CFormData request) w = (Returned form, w1) ->
    auth_valid form "login" username password ->
    oracle (CLogin username password) w1 = (Raised e, w2) ->
    login_path w
      (mkRun (Raised e) w2 (opening form ++ [EvCall (CLogin username password)]))
| path_login_refused (form : FormData) (w1 w2 : World)
    (username password : string) :
    oracle (CFormData request) w = (Returned form, w1) ->
    auth_valid form "login" username password ->
    oracle (CLogin username password) w1 = (Returned None, w2) ->
    login_path w
      (mkRun (Returned (LoginRoute.badRequest
                          (auth_form_error "login" username password
                             "Username/Password combination is incorrect.")))
             w2 (opening form ++ [EvCall (CLogin username password)]))
| path_login_commit_throws (form : FormData) (w1 w2 w3 : World)
    (username password : string) (user : User) (e : thrown) :
    oracle (CFormData request) w = (Returned form, w1) ->
    auth_valid form "login" username password ->
    oracle (CLogin username password) w1 = (Returned (Some user), w2) ->
    oracle (CCommitSession (user_id user)) w2 = (Raised e, w3) ->
    login_path w
      (mkRun (Raised e) w3
             (opening form ++ [EvCall (CLogin username password);
                               EvCall (CCommitSession (user_id user))]))
| path_login_session (form : FormData) (w1 w2 w3 : World)
    (username password target cookie : string) (user : User) :
    oracle (CFormData request) w = (Returned form, w1) ->
    auth_valid form "login" username password ->
    oracle (CLogin username password) w1 = (Returned (Some user), w2) ->
    oracle (CCommitSession (user_id user)) w2 = (Returned cookie, w3) ->
    In target LoginRoute.urls ->
    result (run oracle (LoginRoute.validateUrl (FormData_get "redirectTo" form))
                w1) = Returned target ->
    login_path w
      (mkRun (Returned (redirect target [("Set-Cookie", cookie)])) w3
             (opening form ++ [EvCall (CLogin username password);
                               EvCall (CCommitSession (user_id user))]))
| path_find_throws (form : FormData) (w1 w2 : World)
    (username password : string) (e : thrown) :
    oracle (CFormData request) w = (Returned form, w1) ->
    auth_valid form "register" username password ->
    oracle (CUserFindFirst username) w1 = (Raised e, w2) ->
    login_path w
      (mkRun (Raised e) w2 (opening form ++ [EvCall (CUserFindFirst username)]))
| path_user_exists (form : FormData) (w1 w2 : World)
    (username password : string) (existing : User) :
    oracle (CFormData request) w = (Returned form, w1) ->
    auth_valid form "register" username password ->
    oracle (CUserFindFirst username) w1 = (Returned (Some existing), w2) ->
    login_path w
      (mkRun (Returned (LoginRoute.badRequest
                          (auth_form_error "register" username password
                             ("User with username " ++ username
                              ++ " already exists"))))
             w2 (opening form ++ [EvCall (CUserFindFirst username)]))
| path_register_throws (form : FormData) (w1 w2 w3 : World)
    (username password : string) (e : thrown) :
    oracle (CFormData request) w = (Returned form, w1) ->
    auth_valid form "register" username password ->
    oracle (CUserFindFirst username) w1 = (Returned None, w2) ->
    oracle (CRegister username password) w2 = (Raised e, w3) ->
    login_path w
      (mkRun (Raised e) w3
             (opening form ++ [EvCall (CUserFindFirst username);
                               EvCall (CRegister username password)]))
| path_register_nothing (form : FormData) (w1 w2 w3 : World)
    (username password : string) :
    oracle (CFormData request) w = (Returned form, w1) ->
    auth_valid form "register" username password ->
    oracle (CUserFindFirst username) w1 = (Returned None, w2) ->
    oracle (CRegister username password) w2 = (Returned None, w3) ->
    login_path w
      (mkRun (Returned (LoginRoute.badRequest
                          (auth_form_error "register" username password
                                           "Not implemented")))
             w3 (opening form ++ [EvCall (CUserFindFirst username);
                                  EvCall (CRegister username password)]))
| path_register_commit_throws (form : FormData) (w1 w2 w3 w4 : World)
    (username password : string) (user : User) (e : thrown) :
    oracle (CFormData request) w = (Returned form, w1) ->
    auth_valid form "register" username password ->
    oracle (CUserFindFirst username) w1 = (Returned None, w2) ->
    oracle (CRegister username password) w2 = (Returned (Some user), w3) ->
    oracle (CCommitSession (user_id user)) w3 = (Raised e, w4) ->
    login_path w
      (mkRun (Raised e) w4
             (opening form ++ [EvCall (CUserFindFirst username);
                               EvCall (CRegister username password);
                               EvCall (CCommitSession (user_id user))]))
| path_register_session (form : FormData) (w1 w2 w3 w4 : World)
    (username password target cookie : string) (user : User) :
    oracle (CFormData request) w = (Returned form, w1) ->
    auth_valid form "register" username password ->
    oracle (CUserFindFirst username) w1 = (Returned None, w2) ->
    oracle (CRegister username password) w2 = (Returned (Some user), w3) ->
    oracle (CCommitSession (user_id user)) w3 = (Returned cookie, w4) ->
    In target LoginRoute.urls ->
    result (run oracle (LoginRoute.validateUrl (FormData_get "redirectTo" form))
                w1) = Returned target ->
    login_path w
      (mkRun (Returned (redirect target [("Set-Cookie", cookie)])) w4
             (opening form ++ [EvCall (CUserFindFirst username);
                               EvCall (CRegister username password);
                               EvCall (CCommitSession (user_id user))])).

End LoginPaths.

Lemma typeof_string (v : value) :
  typeof v = "string" <-> exists s, v = VString s.
Proof.
  split.
  - destruct v; simpl; intros H; try discriminate H. now exists s.
  - intros [s ->]. reflexivity.
Qed.

Lemma is_message_truthy (v : value) : is_message v -> Boolean v = true.
Proof.
  intros (m & -> & Hm). simpl.
  destruct (String.eqb_spec m ""); [contradiction | reflexivity].
Qed.

Lemma undefined_not_message : ~ is_message VUndefined.
Proof. intros (m & H & _). discriminate H. Qed.

Lemma append_assoc (a b c : string) : (a ++ b) ++ c = a ++ (b ++ c).
Proof. induction a as [| x a IH]; simpl; [reflexivity | now rewrite IH]. Qed.

Lemma already_exists_mentioned (username : string) :
  mentions "already exists"
           ("User with username " ++ username ++ " already exists").
Proof.
  exists ("User with username " ++ username ++ " "), "".
  rewrite !append_assoc. reflexivity.
Qed.

Lemma includes_In (l : list string) (s : string) :
  includes l s = true <-> In s l.
Proof.
  unfold includes. rewrite existsb_exists. split.
  - intros (x & Hin & Heq). apply String.eqb_eq in Heq. now subst.
  - intros Hin. exists s. split; [assumption | apply String.eqb_refl].
Qed.

(** Every form is accepted, malformed or invalid. *)
Lemma joke_form_cases (form : FormData) :
  (exists name content, joke_accepted form name content)
  \/ joke_malformed form
  \/ (exists name content, joke_invalid form name content).
Proof.
  unfold joke_accepted, joke_malformed, joke_invalid.
  destruct (FormData_get "name" form) as [| | | | name | |] eqn:En;
    try (right; left; left; discriminate).
  destruct (FormData_get "content" form) as [| | | | content | |] eqn:Ec;
    try (right; left; right; discriminate).
  destruct (Nat.ltb_spec (String.length name) 3) as [Hn | Hn].
  - right; right. exists name, content. auto.
  - destruct (Nat.ltb_spec (String.length content) 10) as [Hc | Hc].
    + right; right. exists name, content. auto.
    + left. exists name, content. auto.
Qed.

(** ** The field validators *)

Import JokesNewRoute LoginRoute.

Lemma validateJokeName_spec (name : string) :
  (String.length name < 3 /\ is_message (validateJokeName name))
  \/ (3 <= String.length name /\ validateJokeName name = VUndefined).
Proof.
  unfold validateJokeName.
  destruct (Nat.ltb_spec (String.length name) 3); [left | right]; split; trivial.
  eexists; split; [reflexivity | discriminate].
Qed.

Lemma validateJokeContent_spec (content : string) :
  (String.length content < 10 /\ is_message (validateJokeContent content))
  \/ (10 <= String.length content /\ validateJokeContent content = VUndefined).
Proof.
  unfold validateJokeContent.
  destruct (Nat.ltb_spec (String.length content) 10); [left | right]; split; trivial.
  eexists; split; [reflexivity | discriminate].
Qed.


(** C7. For every string [name], [validateJokeName name] is a non-empty
    message exactly when [name] has fewer than 3 characters and is
    [undefined] exactly when it has 3 or more; for every string [content],
    [validateJokeContent content] is a non-empty message exactly when
    [content] has fewer than 10 characters and [undefined] otherwise. *)
Theorem joke_validators_length (name content : string) :
  (is_message (validateJokeName name) <-> String.length name < 3)
  /\ (validateJokeName name = VUndefined <-> 3 <= String.length name)
  /\ (is_message (validateJokeContent content) <-> String.length content < 10)
  /\ (validateJokeContent content = VUndefined <-> 10 <= String.length content).
Proof.
  destruct (validateJokeName_spec name) as [[Hn Hm] | [Hn Hu]];
  destruct (validateJokeContent_spec content) as [[Hc Hk] | [Hc Hv]];
  repeat split; intros; trivial; try lia;
  try (rewrite Hu in *); try (rewrite Hv in *);
  try (exfalso; eapply undefined_not_message; eassumption);
  try (destruct Hm as (m & E & _); congruence);
  try (destruct Hk as (m & E & _); congruence).
Qed.

Lemma joke_validators_length_witness :
  is_message (validateJokeName "ab")
  /\ validateJokeContent "1234567890" = VUndefined.
Proof.
  destruct (joke_validators_length "ab" "1234567890") as (Hn & _ & _ & Hc).
  split.
  - apply Hn. simpl. lia.
  - apply Hc. simpl. lia.
Defined.

Lemma validateUsername_spec (username : value) :
  (exists s, username = VString s /\ 3 <= String.length s
             /\ validateUsername username = VUndefined)
  \/ ((typeof username <> "string"
       \/ exists s, username = VString s /\ String.length s < 3)
      /\ is_message (validateUsername username)).
Proof.
  destruct username; simpl;
    try (right; split;
         [left; discriminate | eexists; split; [reflexivity | discriminate]]).
  destruct (Nat.ltb_spec (String.length s) 3).
  - right. split; [right; now exists s |].
    eexists; split; [reflexivity | discriminate].
  - left. now exists s.
Qed.

Lemma validatePassword_spec (password : value) :
  (exists s, password = VString s /\ 6 <= String.length s
             /\ validatePassword password = VUndefined)
  \/ ((typeof password <> "string"
       \/ exists s, password = VString s /\ String.length s < 6)
      /\ is_message (validatePassword password)).
Proof.
  destruct password; simpl;
    try (right; split;
         [left; discriminate | eexists; split; [reflexivity | discriminate]]).
  destruct (Nat.ltb_spec (String.length s) 6).
  - right. split; [right; now exists s |].
    eexists; split; [reflexivity | discriminate].
  - left. now exists s.
Qed.

(** C8. For every value, [validateUsername] answers a non-empty message
    when the value is not a string or is a string shorter than 3, and
    [undefined] otherwise; [validatePassword] does the same with 6.  Both
    are functions from values to values: total, and with no effect. *)
Theorem credential_validators (username password : value) :
  ((typeof username <> "string"
    \/ (exists s, username = VString s /\ String.length s < 3))
   -> is_message (validateUsername username))
  /\ (~ (typeof username <> "string"
         \/ (exists s, username = VString s /\ String.length s < 3))
      -> validateUsername username = VUndefined)
  /\ ((typeof password <> "string"
       \/ (exists s, password = VString s /\ String.length s < 6))
      -> is_message (validatePassword password))
  /\ (~ (typeof password <> "string"
         \/ (exists s, password = VString s /\ String.length s < 6))
      -> validatePassword password = VUndefined).
Proof.
  destruct (validateUsername_spec username) as [(s & -> & Hs & Hu) | [Hbad Hm]];
  destruct (validatePassword_spec password) as [(t & -> & Ht & Hp) | [Hbad' Hm']];
  repeat split; intros H; trivial; try contradiction;
  exfalso; destruct H as [H | (x & E & Hx)];
    try (apply H; reflexivity); injection E as <-; lia.
Qed.

Lemma credential_validators_witness :
  is_message (validateUsername VNull)
  /\ validateUsername (VString "kody") = VUndefined
  /\ is_message (validatePassword (VString "12345"))
  /\ validatePassword (VString "twixrox") = VUndefined.
Proof.
  destruct (credential_validators VNull (VString "12345")) as (Hu & _ & Hp & _).
  destruct (credential_validators (VString "kody") (VString "twixrox"))
    as (_ & Hu' & _ & Hp').
  split; [| split; [| split]].
  - apply Hu. left. discriminate.
  - apply Hu'. intros [H | (s & E & Hs)].
    + apply H. reflexivity.
    + injection E as <-. simpl in Hs. lia.
  - apply Hp. right. exists "12345". split; [reflexivity | simpl; lia].
  - apply Hp'. intros [H | (s & E & Hs)].
    + apply H. reflexivity.
    + injection E as <-. simpl in Hs. lia.
Defined.

(** ** Running programs *)

Section Handlers.

Context {World : Type}.
Variable oracle : forall c : call, World -> outcome (answer c) * World.

(** Running [p] and then [f]: the calls of [p] come first; a throw in
    [p] ends the run. *)
Lemma run_bind {A B : Type} (p : Prog A) (f : A -> Prog B) (w : World) :
  run oracle (Prog_bind p f) w =
  match result (run oracle p w) with
  | Returned a =>
      prepend (trace (run oracle p w))
              (run oracle (f a) (final (run oracle p w)))
  | Raised e =>
      mkRun (Raised e) (final (run oracle p w)) (trace (run oracle p w))
  end.
Proof.
  revert w. induction p as [a | e | v k IH | c k IH]; intros w; simpl.
  - destruct (run oracle (f a) w); reflexivity.
  - reflexivity.
  - rewrite IH. destruct (result (run oracle k w)); reflexivity.
  - destruct (oracle c w) as [[x | e] w']; simpl; [| reflexivity].
    rewrite IH. destruct (result (run oracle (k x) w')); reflexivity.
Qed.

(** What [validateUrl] does with an argument: one line on the console,
    no call, and a member of [urls] returned. *)
Lemma run_validateUrl (x : value) (w : World) :
  exists t : string,
    run oracle (validateUrl x) w
    = mkRun (Returned t) w
            [EvLog (default_arg (VString "/jokes") x)]
    /\ In t urls
    /\ ((x = VString t /\ In t urls)
        \/ (t = "/jokes" /\ forall s, In s urls -> x <> VString s)).
Proof.
  unfold validateUrl, default_arg.
  destruct x; cbv beta iota zeta;
    try (exists "/jokes"; split; [reflexivity |]; split; [now left |];
         right; split; [reflexivity | intros; discriminate]).
  destruct (includes urls s) eqn:E.
  - apply includes_In in E.
    exists s. split; [reflexivity |]. split; [exact E | left; now split].
  - exists "/jokes". split; [reflexivity |]. split; [now left |].
    right. split; [reflexivity |].
    intros s' Hin [= ->]. apply includes_In in Hin. congruence.
Qed.

(** C1. For every argument [x] of [validateUrl] (an absent value, the
    empty string, any string at all, any other value), the result is a
    member of the allow-list ['/jokes'], ['/'], ['https://remix.run'];
    an argument that is not exactly a member of the list gives
    ['/jokes'], and so does an absent one ([undefined], or the [null]
    that [form.get] answers for a missing field); a member of the list is
    returned as it is. *)
Theorem validateUrl_allow_list (x : value) (w : World) :
  exists t : string,
    result (run oracle (validateUrl x) w) = Returned t
    /\ In t ["/jokes"; "/"; "https://remix.run"]
    /\ ((forall s, In s ["/jokes"; "/"; "https://remix.run"] -> x <> VString s)
        -> t = "/jokes")
    /\ (x = VUndefined \/ x = VNull -> t = "/jokes")
    /\ (forall s, In s ["/jokes"; "/"; "https://remix.run"] -> x = VString s
                  -> t = s).
Proof.
  destruct (run_validateUrl x w) as (t & Hrun & Hin & Hcase).
  exists t. rewrite Hrun. simpl. split; [reflexivity |].
  split; [exact Hin |]. split; [| split].
  - intros Hno. destruct Hcase as [[E _] | [E _]]; [| exact E].
    exfalso. exact (Hno t Hin E).
  - intros Habs. destruct Hcase as [[E _] | [E _]]; [| exact E].
    destruct Habs as [-> | ->]; discriminate E.
  - intros s Hs ->. destruct Hcase as [[E _] | [_ Hno]].
    + now injection E.
    + exfalso. exact (Hno s Hs eq_refl).
Qed.

End Handlers.

Lemma validateUrl_allow_list_witness :
  result (run site_oracle (validateUrl (VString "https://evil.example"))
              (site None []))
  = Returned "/jokes".
Proof.
  destruct (validateUrl_allow_list site_oracle
              (VString "https://evil.example") (site None []))
    as (t & Hr & _ & Hdef & _ & _).
  rewrite Hr. f_equal. apply Hdef.
  intros s [<- | [<- | [<- | []]]]; discriminate.
Defined.

(** ** The new-joke route *)

Arguments validateJokeName : simpl never.
Arguments validateJokeContent : simpl never.
Arguments validateUsername : simpl never.
Arguments validatePassword : simpl never.

Section NewJoke.

Context {World : Type}.
Variable oracle : forall c : call, World -> outcome (answer c) * World.
Variable request : Request.

Local Abbreviation session := (EvCall (CGetUserId request)).
Local Abbreviation form_read := (EvCall (CFormData request)).

(** C10. The loader of the new-joke route (the GET that renders the form
    page) throws a [Response] of status 401 whenever [getUserId] finds no
    user, and returns the empty JSON payload [{}] when it finds a user id
    (a non-empty string; the loader tests [!userId], so an empty id counts
    as none). *)
Theorem loader_requires_user (w w' : World) :
  (oracle (CGetUserId request) w = (Returned None, w') ->
   exists r : Response,
     run oracle (JokesNewRoute.loader request) w
     = mkRun (Raised (ThrownResponse r)) w' [session]
     /\ status r = 401)
  /\ (forall userId : string,
        oracle (CGetUserId request) w = (Returned (Some userId), w') ->
        userId <> "" ->
        exists r : Response,
          run oracle (JokesNewRoute.loader request) w
          = mkRun (Returned r) w' [session]
          /\ status r = 200
          /\ body r = VObject [])
  /\ (oracle (CGetUserId request) w = (Returned (Some ""), w') ->
      exists r : Response,
        run oracle (JokesNewRoute.loader request) w
        = mkRun (Raised (ThrownResponse r)) w' [session]
        /\ status r = 401).
Proof.
  unfold JokesNewRoute.loader, getUserId. split; [| split].
  - intros H. cbn. rewrite H. cbn. eexists. split; reflexivity.
  - intros userId H Hid. cbn. rewrite H. cbn.
    destruct (String.eqb_spec userId ""); [contradiction |].
    cbn. eexists. repeat split.
  - intros H. cbn. rewrite H. cbn. eexists. split; reflexivity.
Qed.

(** C5. When no user identity is resolved, the new-joke action ends with
    a thrown [Response] of status 401 and its only call is the session
    lookup: the form body is not read (so no field is extracted and no
    validator is given one) and the store is not called. *)
Theorem action_unauthorized (w w' : World) :
  oracle (CGetUserId request) w = (Returned None, w') ->
  exists r : Response,
    run oracle (JokesNewRoute.action request) w
    = mkRun (Raised (ThrownResponse r)) w' [session]
    /\ status r = 401
    /\ count is_form_read (trace (run oracle (JokesNewRoute.action request) w)) = 0
    /\ count is_joke_create (trace (run oracle (JokesNewRoute.action request) w)) = 0.
Proof.
  intros H. unfold JokesNewRoute.action, requireUserId, getUserId.
  cbn. rewrite H. cbn. eexists. repeat split.
Qed.

(** C2. Once the user is resolved and the form read, an accepted
    submission (both fields strings, name of 3 or more, content of 10 or
    more) makes exactly one call of the joke store, [create] with the
    submitted name and content and the user's id as owner, and the answer
    is a redirect to [/jokes/<id of the new joke>]: a response of status
    302 whose one header is [Location: /jokes/<id>]; a rejected submission
    (malformed, or a field too short) is answered with status 400 and
    makes no call of the store. *)
Theorem action_creates_once_or_never
    (userId : string) (form : FormData) (w w1 w2 : World) :
  oracle (CGetUserId request) w = (Returned (Some userId), w1) ->
  oracle (CFormData request) w1 = (Returned form, w2) ->
  (forall (name content : string) (joke : Joke) (w3 : World),
      joke_accepted form name content ->
      oracle (CJokeCreate name content userId) w2 = (Returned joke, w3) ->
      run oracle (JokesNewRoute.action request) w
      = mkRun (Returned (redirect ("/jokes/" ++ joke_id joke) [])) w3
              [session; form_read; EvCall (CJokeCreate name content userId)]
      /\ count is_joke_create
               (trace (run oracle (JokesNewRoute.action request) w)) = 1
      /\ (exists r : Response,
            result (run oracle (JokesNewRoute.action request) w) = Returned r
            /\ status r = 302
            /\ headers r = [("Location", "/jokes/" ++ joke_id joke)]
            /\ body r = VNull))
  /\ (joke_malformed form
       \/ (exists name content : string, joke_invalid form name content) ->
      exists r : Response,
        run oracle (JokesNewRoute.action request) w
        = mkRun (Returned r) w2 [session; form_read]
        /\ status r = 400
        /\ count is_joke_create
                 (trace (run oracle (JokesNewRoute.action request) w)) = 0).
Proof.
  intros Hu Hf.
  unfold JokesNewRoute.action, requireUserId, getUserId, formData, db_joke_create.
  cbn. rewrite Hu. cbn. rewrite Hf. cbn. split.
  - intros name content joke w3 (Hn & Hc & Hln & Hlc) Hj.
    rewrite Hn, Hc.
    destruct (validateJokeName_spec name) as [[? _] | [_ ->]]; [lia |].
    destruct (validateJokeContent_spec content) as [[? _] | [_ ->]]; [lia |].
    cbn. rewrite Hj. cbn.
    split; [reflexivity |]. split; [reflexivity |].
    eexists. repeat split.
  - intros [[Hn | Hc] | (name & content & Hn & Hc & Hshort)].
    + destruct (FormData_get "name" form);
        try (exfalso; apply Hn; reflexivity);
        eexists; repeat split.
    + destruct (FormData_get "content" form);
        try (exfalso; apply Hc; reflexivity);
        destruct (FormData_get "name" form); eexists; repeat split.
    + rewrite Hn, Hc.
      destruct (validateJokeName_spec name) as [[_ Hm] | [? Hm]];
      destruct (validateJokeContent_spec content) as [[_ Hk] | [? Hk]];
        try lia;
        try (apply is_message_truthy in Hm); try (apply is_message_truthy in Hk);
        try rewrite Hm; try rewrite Hk; cbn;
        rewrite ?orb_true_r; cbn; eexists; repeat split.
Qed.

(** C6. For a resolved user and a form whose name and content are both
    strings, if at least one of the two validators answers a message the
    action answers with status 400; in the payload, [fieldErrors] holds
    each validator's answer under the field's name, so an entry is set
    exactly when that field's validator failed, [fields] echoes the two
    submitted strings, and the store is not called. *)
Theorem action_field_errors
    (userId : string) (form : FormData) (w w1 w2 : World)
    (name content : string) :
  oracle (CGetUserId request) w = (Returned (Some userId), w1) ->
  oracle (CFormData request) w1 = (Returned form, w2) ->
  FormData_get "name" form = VString name ->
  FormData_get "content" form = VString content ->
  is_message (validateJokeName name)
  \/ is_message (validateJokeContent content) ->
  exists r : Response,
    run oracle (JokesNewRoute.action request) w
    = mkRun (Returned r) w2 [session; form_read]
    /\ status r = 400
    /\ (prop "name" (prop "fieldErrors" (body r)) <> VUndefined
        <-> is_message (validateJokeName name))
    /\ (prop "content" (prop "fieldErrors" (body r)) <> VUndefined
        <-> is_message (validateJokeContent content))
    /\ prop "fields" (body r)
       = VObject [("name", VString name); ("content", VString content)]
    /\ count is_joke_create
             (trace (run oracle (JokesNewRoute.action request) w)) = 0.
Proof.
  intros Hu Hf Hn Hc Hfail.
  unfold JokesNewRoute.action, requireUserId, getUserId, formData, db_joke_create.
  cbn. rewrite Hu. cbn. rewrite Hf. cbn. rewrite Hn, Hc.
  assert (Hsome : Boolean (validateJokeName name)
                  || (Boolean (validateJokeContent content) || false) = true).
  { destruct Hfail as [H | H]; apply is_message_truthy in H; rewrite H;
      rewrite ?orb_true_r; reflexivity. }
  rewrite Hsome. cbn. eexists. split; [reflexivity |]. cbn.
  split; [reflexivity |]. split; [| split; [| split; reflexivity]].
  - destruct (validateJokeName_spec name) as [[_ Hm] | [_ Hv]].
    + split; [intros _; exact Hm |].
      intros _. destruct Hm as (m & -> & _). discriminate.
    + rewrite Hv. split; [intros H; now contradiction H |].
      intros H. now apply undefined_not_message in H.
  - destruct (validateJokeContent_spec content) as [[_ Hm] | [_ Hv]].
    + split; [intros _; exact Hm |].
      intros _. destruct Hm as (m & -> & _). discriminate.
    + rewrite Hv. split; [intros H; now contradiction H |].
      intros H. now apply undefined_not_message in H.
Qed.

End NewJoke.

(** The two scenarios of the new-joke form on the sample site. *)

Lemma loader_requires_user_witness :
  (exists r : Response,
      run site_oracle (JokesNewRoute.loader visit) (site None [])
      = mkRun (Raised (ThrownResponse r)) (site None [])
              [EvCall (CGetUserId visit)]
      /\ status r = 401)
  /\ (exists r : Response,
        run site_oracle (JokesNewRoute.loader visit) (site (Some "user-i") [])
        = mkRun (Returned r) (site (Some "user-i") [])
                [EvCall (CGetUserId visit)]
        /\ status r = 200
        /\ body r = VObject []).
Proof.
  split.
  - destruct (loader_requires_user site_oracle visit
                (site None []) (site None [])) as (Hnone & _ & _).
    apply Hnone. reflexivity.
  - destruct (loader_requires_user site_oracle visit
                (site (Some "user-i") []) (site (Some "user-i") []))
      as (_ & Hsome & _).
    apply (Hsome "user-i").
    + reflexivity.
    + discriminate.
Defined.

Lemma action_unauthorized_witness :
  exists r : Response,
    run site_oracle (JokesNewRoute.action post)
        (site None [("name", VString "abc"); ("content", VString "1234567890")])
    = mkRun (Raised (ThrownResponse r))
            (site None [("name", VString "abc"); ("content", VString "1234567890")])
            [EvCall (CGetUserId post)]
    /\ status r = 401.
Proof.
  destruct (action_unauthorized site_oracle post
              (site None [("name", VString "abc");
                          ("content", VString "1234567890")])
              _ eq_refl) as (r & Hrun & Hst & _).
  exists r. split; assumption.
Defined.

Lemma action_creates_once_or_never_witness :
  count is_joke_create
    (trace (run site_oracle (JokesNewRoute.action post)
              (site (Some "user-i")
                    [("name", VString "abc");
                     ("content", VString "1234567890")]))) = 1
  /\ (exists r : Response,
        result (run site_oracle (JokesNewRoute.action post)
                    (site (Some "user-i")
                          [("name", VString "abc");
                           ("content", VString "1234567890")]))
        = Returned r
        /\ status r = 302
        /\ headers r = [("Location", "/jokes/joke-i")])
  /\ count is_joke_create
       (trace (run site_oracle (JokesNewRoute.action post)
                 (site (Some "user-i")
                       [("name", VString "ab");
                        ("content", VString "1234567890")]))) = 0.
Proof.
  assert (Hacc : joke_accepted
                   [("name", VString "abc"); ("content", VString "1234567890")]
                   "abc" "1234567890")
    by (unfold joke_accepted; simpl; repeat split; lia).
  destruct (action_creates_once_or_never site_oracle post "user-i"
              [("name", VString "abc"); ("content", VString "1234567890")]
              (site (Some "user-i") _) _ _ eq_refl eq_refl) as [Hok _].
  destruct (Hok "abc" "1234567890"
                (mkJoke "joke-i" "user-i" "abc" "1234567890") _
                Hacc eq_refl)
    as (_ & Hone & r1 & Hr1 & Hst1 & Hloc1 & _).
  split; [exact Hone |]. split; [exists r1; auto |].
  - destruct (action_creates_once_or_never site_oracle post "user-i"
                [("name", VString "ab"); ("content", VString "1234567890")]
                (site (Some "user-i") _) _ _ eq_refl eq_refl) as [_ Hno].
    destruct Hno as (r & _ & _ & Hcount); [| exact Hcount].
    right. exists "ab", "1234567890".
    unfold joke_invalid. simpl. repeat split. left. lia.
Defined.

Lemma action_field_errors_witness :
  exists r : Response,
    run site_oracle (JokesNewRoute.action post)
        (site (Some "user-i")
              [("name", VString "ab"); ("content", VString "1234567890")])
    = mkRun (Returned r)
            (site (Some "user-i")
                  [("name", VString "ab"); ("content", VString "1234567890")])
            [EvCall (CGetUserId post); EvCall (CFormData post)]
    /\ status r = 400
    /\ prop "name" (prop "fieldErrors" (body r)) <> VUndefined
    /\ prop "content" (prop "fieldErrors" (body r)) = VUndefined.
Proof.
  destruct (action_field_errors site_oracle post "user-i"
              [("name", VString "ab"); ("content", VString "1234567890")]
              (site (Some "user-i") _) _ _ "ab" "1234567890"
              eq_refl eq_refl eq_refl eq_refl)
    as (r & Hrun & Hst & Hname & Hcontent & _).
  - left. eexists. split; [reflexivity | discriminate].
  - exists r. split; [exact Hrun |]. split; [exact Hst |]. split.
    + apply Hname. eexists. split; [reflexivity | discriminate].
    + destruct (prop "content" (prop "fieldErrors" (body r))) eqn:E;
        try reflexivity;
        assert (Hset : is_message (validateJokeContent "1234567890"))
          by (apply Hcontent; discriminate);
        destruct Hset as (m & Hm & _); discriminate Hm.
Defined.

(** ** The login route *)

Arguments validateUrl : simpl never.
Arguments default_arg : simpl never.

Section AuthFlow.

Context {World : Type}.
Variable oracle : forall c : call, World -> outcome (answer c) * World.
Variable request : Request.

Local Abbreviation form_read := (EvCall (CFormData request)).
Local Abbreviation console form :=
  (EvLog (default_arg (VString "/jokes") (FormData_get "redirectTo" form))).

(** Enter the action: read the form, validate the redirect target (named
    [t], a member of [urls] by [Hin]), and narrow the three fields. *)
Ltac enter_action Hf Hfields form w1 t Hrun Hin :=
  let Hl := fresh "Hl" in
  let Hu := fresh "Hu" in
  let Hp := fresh "Hp" in
  destruct Hfields as (Hl & Hu & Hp);
  destruct (run_validateUrl oracle (FormData_get "redirectTo" form) w1)
    as (t & Hrun & Hin & _);
  unfold LoginRoute.action, formData, login, register, db_user_findFirst,
    createUserSession;
  cbn; rewrite Hf; cbn; rewrite Hl, Hu, Hp;
  rewrite run_bind, Hrun; cbn.

(** C9. When the username or the password validator answers a message,
    the login action answers with status 400 and its payload's [fields]
    are the submitted loginType, username and password, the password
    unchanged. *)
Theorem action_echoes_password
    (form : FormData) (w w1 : World) (loginType username password : string) :
  oracle (CFormData request) w = (Returned form, w1) ->
  auth_fields form loginType username password ->
  is_message (validateUsername (VString username))
  \/ is_message (validatePassword (VString password)) ->
  exists r : Response,
    run oracle (LoginRoute.action request) w
    = mkRun (Returned r) w1 [form_read; console form]
    /\ status r = 400
    /\ prop "fields" (body r) = auth_echo loginType username password
    /\ prop "loginType" (prop "fields" (body r)) = VString loginType
    /\ prop "username" (prop "fields" (body r)) = VString username
    /\ prop "password" (prop "fields" (body r)) = VString password.
Proof.
  intros Hf Hfields Hfail.
  enter_action Hf Hfields form w1 t Hrun Hin.
  assert (Hsome : Boolean (validateUsername (VString username))
                  || (Boolean (validatePassword (VString password)) || false)
                  = true).
  { destruct Hfail as [H | H]; apply is_message_truthy in H; rewrite H;
      rewrite ?orb_true_r; reflexivity. }
  rewrite Hsome. cbn. eexists. repeat split.
Qed.

(** C3. For a submission with loginType ['login'] whose username and
    password pass the validators: when [login] answers no user, the action
    answers with status 400 and a payload made of the echoed fields and
    one form-level error, the same sentence whatever the reason (unknown
    user or wrong password), with no [fieldErrors], and no session is
    created; when [login] answers a user, the action creates a session for
    that user's id and answers with a redirect to the target that
    [validateUrl] gave for the [redirectTo] field: a response of status
    302 with the session's [Set-Cookie] and [Location] the target. *)
Theorem login_dispatch
    (form : FormData) (w w1 : World) (username password : string) :
  oracle (CFormData request) w = (Returned form, w1) ->
  auth_fields form "login" username password ->
  validateUsername (VString username) = VUndefined ->
  validatePassword (VString password) = VUndefined ->
  (forall w2 : World,
      oracle (CLogin username password) w1 = (Returned None, w2) ->
      run oracle (LoginRoute.action request) w
      = mkRun
          (Returned
             (LoginRoute.badRequest
                (VObject
                   [("fields", auth_echo "login" username password);
                    ("formError",
                     VString "Username/Password combination is incorrect.")])))
          w2 [form_read; console form; EvCall (CLogin username password)]
      /\ (forall r : Response,
            result (run oracle (LoginRoute.action request) w) = Returned r ->
            status r = 400 /\ prop "fieldErrors" (body r) = VUndefined)
      /\ (exists r : Response,
            result (run oracle (LoginRoute.action request) w) = Returned r
            /\ status r = 400
            /\ prop "formError" (body r)
               = VString "Username/Password combination is incorrect."
            /\ prop "fields" (body r) = auth_echo "login" username password
            /\ prop "fieldErrors" (body r) = VUndefined))
  /\ (forall (user : User) (cookie : string) (w2 w3 : World),
        oracle (CLogin username password) w1 = (Returned (Some user), w2) ->
        oracle (CCommitSession (user_id user)) w2 = (Returned cookie, w3) ->
        exists target : string,
          result (run oracle (validateUrl (FormData_get "redirectTo" form)) w1)
          = Returned target
          /\ In target urls
          /\ run oracle (LoginRoute.action request) w
             = mkRun (Returned (redirect target [("Set-Cookie", cookie)])) w3
                     [form_read; console form;
                      EvCall (CLogin username password);
                      EvCall (CCommitSession (user_id user))]
          /\ (exists r : Response,
                result (run oracle (LoginRoute.action request) w) = Returned r
                /\ status r = 302
                /\ headers r = [("Set-Cookie", cookie); ("Location", target)]
                /\ body r = VNull)).
Proof.
  intros Hf Hfields Hvu Hvp. split.
  - intros w2 Hlogin.
    enter_action Hf Hfields form w1 t Hrun Hin.
    rewrite Hvu, Hvp. cbn. rewrite Hlogin. cbn.
    split; [reflexivity |]. split.
    + intros r [= <-]. split; reflexivity.
    + eexists. repeat split.
  - intros user cookie w2 w3 Hlogin Hcommit.
    enter_action Hf Hfields form w1 t Hrun Hin.
    rewrite Hvu, Hvp. cbn. rewrite Hlogin. cbn. rewrite Hcommit. cbn.
    exists t. split; [reflexivity |]. split; [exact Hin |].
    split; [reflexivity |]. eexists. repeat split.
Qed.

(** C4. For a submission with loginType ['register'] whose fields pass
    the validators: when the store already has a user of that username,
    the action answers with status 400 and a form-level error that
    mentions "already exists", and [register] is not called; when it has
    none and [register] answers a user, the action creates a session for
    that user's id and redirects to the validated target (status 302, the
    session's [Set-Cookie], [Location] the target); when [register]
    answers no user, the action answers with status 400 and the form-level
    error "Not implemented". *)
Theorem register_dispatch
    (form : FormData) (w w1 : World) (username password : string) :
  oracle (CFormData request) w = (Returned form, w1) ->
  auth_fields form "register" username password ->
  validateUsername (VString username) = VUndefined ->
  validatePassword (VString password) = VUndefined ->
  (forall (existing : User) (w2 : World),
      oracle (CUserFindFirst username) w1 = (Returned (Some existing), w2) ->
      exists (r : Response) (message : string),
        run oracle (LoginRoute.action request) w
        = mkRun (Returned r) w2
                [form_read; console form; EvCall (CUserFindFirst username)]
        /\ status r = 400
        /\ prop "formError" (body r) = VString message
        /\ mentions "already exists" message
        /\ count is_register
                 (trace (run oracle (LoginRoute.action request) w)) = 0)
  /\ (forall (user : User) (cookie : string) (w2 w3 w4 : World),
        oracle (CUserFindFirst username) w1 = (Returned None, w2) ->
        oracle (CRegister username password) w2 = (Returned (Some user), w3) ->
        oracle (CCommitSession (user_id user)) w3 = (Returned cookie, w4) ->
        exists target : string,
          result (run oracle (validateUrl (FormData_get "redirectTo" form)) w1)
          = Returned target
          /\ In target urls
          /\ run oracle (LoginRoute.action request) w
             = mkRun (Returned (redirect target [("Set-Cookie", cookie)])) w4
                     [form_read; console form;
                      EvCall (CUserFindFirst username);
                      EvCall (CRegister username password);
                      EvCall (CCommitSession (user_id user))]
          /\ (exists r : Response,
                result (run oracle (LoginRoute.action request) w) = Returned r
                /\ status r = 302
                /\ headers r = [("Set-Cookie", cookie); ("Location", target)]
                /\ body r = VNull))
  /\ (forall w2 w3 : World,
        oracle (CUserFindFirst username) w1 = (Returned None, w2) ->
        oracle (CRegister username password) w2 = (Returned None, w3) ->
        exists r : Response,
          run oracle (LoginRoute.action request) w
          = mkRun (Returned r) w3
                  [form_read; console form;
                   EvCall (CUserFindFirst username);
                   EvCall (CRegister username password)]
          /\ status r = 400
          /\ prop "formError" (body r) = VString "Not implemented").
Proof.
  intros Hf Hfields Hvu Hvp. split; [| split].
  - intros existing w2 Hfind.
    enter_action Hf Hfields form w1 t Hrun Hin.
    rewrite Hvu, Hvp. cbn. rewrite Hfind. cbn.
    eexists. exists ("User with username " ++ username ++ " already exists").
    split; [reflexivity |]. split; [reflexivity |]. split; [reflexivity |].
    split; [apply already_exists_mentioned | reflexivity].
  - intros user cookie w2 w3 w4 Hfind Hreg Hcommit.
    enter_action Hf Hfields form w1 t Hrun Hin.
    rewrite Hvu, Hvp. cbn. rewrite Hfind. cbn. rewrite Hreg. cbn.
    rewrite Hcommit. cbn.
    exists t. split; [reflexivity |]. split; [exact Hin |].
    split; [reflexivity |]. eexists. repeat split.
  - intros w2 w3 Hfind Hreg.
    enter_action Hf Hfields form w1 t Hrun Hin.
    rewrite Hvu, Hvp. cbn. rewrite Hfind. cbn. rewrite Hreg. cbn.
    eexists. repeat split.
Qed.

End AuthFlow.

(** The scenarios of the login form on the sample site, whose only user
    is kody. *)

Lemma action_echoes_password_witness :
  exists r : Response,
    run site_oracle (LoginRoute.action post_login)
        (site None (auth_form "login" "kody" "twix"))
    = mkRun (Returned r) (site None (auth_form "login" "kody" "twix"))
            [EvCall (CFormData post_login);
             EvLog (VString "https://evil.example")]
    /\ status r = 400
    /\ prop "password" (prop "fields" (body r)) = VString "twix".
Proof.
  destruct (action_echoes_password site_oracle post_login
              (auth_form "login" "kody" "twix")
              (site None (auth_form "login" "kody" "twix")) _
              "login" "kody" "twix" eq_refl
              (conj eq_refl (conj eq_refl eq_refl)))
    as (r & Hrun & Hst & _ & _ & _ & Hpw).
  - right. eexists. split; [reflexivity | discriminate].
  - exists r. split; [exact Hrun |]. split; [exact Hst | exact Hpw].
Defined.

(** An unknown user and a wrong password for a known one get the same
    form-level error; the right password gets a session and a redirect
    to ['/jokes'], the posted [redirectTo] being outside the list. *)
Lemma login_dispatch_witness :
  result (run site_oracle (LoginRoute.action post_login)
              (site None (auth_form "login" "nouser" "whatever")))
  = Returned
      (LoginRoute.badRequest
         (VObject
            [("fields", auth_echo "login" "nouser" "whatever");
             ("formError",
              VString "Username/Password combination is incorrect.")]))
  /\ result (run site_oracle (LoginRoute.action post_login)
                 (site None (auth_form "login" "kody" "whatever")))
     = Returned
         (LoginRoute.badRequest
            (VObject
               [("fields", auth_echo "login" "kody" "whatever");
                ("formError",
                 VString "Username/Password combination is incorrect.")]))
  /\ result (run site_oracle (LoginRoute.action post_login)
                 (site None (auth_form "login" "kody" "twixrox")))
     = Returned (redirect "/jokes" [("Set-Cookie", "RJ_session=user-i")]).
Proof.
  split; [| split].
  - destruct (login_dispatch site_oracle post_login
                (auth_form "login" "nouser" "whatever")
                (site None (auth_form "login" "nouser" "whatever")) _
                "nouser" "whatever" eq_refl
                (conj eq_refl (conj eq_refl eq_refl)) eq_refl eq_refl)
      as [Hnone _].
    destruct (Hnone _ eq_refl) as [Hrun _]. rewrite Hrun. reflexivity.
  - destruct (login_dispatch site_oracle post_login
                (auth_form "login" "kody" "whatever")
                (site None (auth_form "login" "kody" "whatever")) _
                "kody" "whatever" eq_refl
                (conj eq_refl (conj eq_refl eq_refl)) eq_refl eq_refl)
      as [Hnone _].
    destruct (Hnone _ eq_refl) as [Hrun _]. rewrite Hrun. reflexivity.
  - destruct (login_dispatch site_oracle post_login
                (auth_form "login" "kody" "twixrox")
                (site None (auth_form "login" "kody" "twixrox")) _
                "kody" "twixrox" eq_refl
                (conj eq_refl (conj eq_refl eq_refl)) eq_refl eq_refl)
      as [_ Hsome].
    destruct (Hsome kody "RJ_session=user-i" _ _ eq_refl eq_refl)
      as (target & Htarget & _ & Hrun & _).
    rewrite Hrun. simpl. injection Htarget as <-. reflexivity.
Defined.

(** Registering kody again is refused; registering bob gives bob a
    session; with registration closed the answer is "Not implemented". *)
Lemma register_dispatch_witness :
  (exists (r : Response) (message : string),
      run site_oracle (LoginRoute.action post_login)
          (site None (auth_form "register" "kody" "secret1"))
      = mkRun (Returned r) (site None (auth_form "register" "kody" "secret1"))
              [EvCall (CFormData post_login);
               EvLog (VString "https://evil.example");
               EvCall (CUserFindFirst "kody")]
      /\ status r = 400
      /\ prop "formError" (body r) = VString message
      /\ mentions "already exists" message)
  /\ result (run site_oracle (LoginRoute.action post_login)
                 (site None (auth_form "register" "bob" "secret1")))
     = Returned (redirect "/jokes" [("Set-Cookie", "RJ_session=user-ii")])
  /\ (exists r : Response,
        result (run site_oracle (LoginRoute.action post_login)
                    (closed_site (auth_form "register" "bob" "secret1")))
        = Returned r
        /\ status r = 400
        /\ prop "formError" (body r) = VString "Not implemented").
Proof.
  split; [| split].
  - destruct (register_dispatch site_oracle post_login
                (auth_form "register" "kody" "secret1")
                (site None (auth_form "register" "kody" "secret1")) _
                "kody" "secret1" eq_refl
                (conj eq_refl (conj eq_refl eq_refl)) eq_refl eq_refl)
      as [Hexists _].
    destruct (Hexists kody _ eq_refl)
      as (r & message & Hrun & Hst & Hmsg & Hm & _).
    exists r, message. repeat split; assumption.
  - destruct (register_dispatch site_oracle post_login
                (auth_form "register" "bob" "secret1")
                (site None (auth_form "register" "bob" "secret1")) _
                "bob" "secret1" eq_refl
                (conj eq_refl (conj eq_refl eq_refl)) eq_refl eq_refl)
      as (_ & Hnew & _).
    destruct (Hnew (mkUser "user-ii" "bob" (sample_hash "secret1"))
                   "RJ_session=user-ii" _ _ _ eq_refl eq_refl eq_refl)
      as (target & Htarget & _ & Hrun & _).
    rewrite Hrun. simpl. injection Htarget as <-. reflexivity.
  - destruct (register_dispatch site_oracle post_login
                (auth_form "register" "bob" "secret1")
                (closed_site (auth_form "register" "bob" "secret1")) _
                "bob" "secret1" eq_refl
                (conj eq_refl (conj eq_refl eq_refl)) eq_refl eq_refl)
      as (_ & _ & Hclosed).
    destruct (Hclosed _ _ eq_refl eq_refl) as (r & Hrun & Hst & Hmsg).
    exists r. rewrite Hrun. repeat split; assumption.
Defined.

(** ** Runs on the sample site *)

(** kody logs in with a [redirectTo] outside the allow-list: the session
    is created and the redirect goes to ['/jokes']. *)
Example login_kody :
  run site_oracle (LoginRoute.action post_login)
      (site None (auth_form "login" "kody" "twixrox"))
  = mkRun (Returned (redirect "/jokes" [("Set-Cookie", "RJ_session=user-i")]))
          (site None (auth_form "login" "kody" "twixrox"))
          [EvCall (CFormData post_login);
           EvLog (VString "https://evil.example");
           EvCall (CLogin "kody" "twixrox");
           EvCall (CCommitSession "user-i")].
Proof. reflexivity. Qed.

(** A login type that is neither ['login'] nor ['register']. *)
Example login_type_invalid :
  result (run site_oracle (LoginRoute.action post_login)
              (site None (auth_form "logout" "kody" "twixrox")))
  = Returned
      (LoginRoute.badRequest
         (VObject [("fields", auth_echo "logout" "kody" "twixrox");
                   ("formError", VString "Login type invalid")])).
Proof. reflexivity. Qed.

(** A form whose username is a file is malformed. *)
Example login_malformed :
  result (run site_oracle (LoginRoute.action post_login)
              (site None [("loginType", VString "login");
                          ("username", VFile "me.txt");
                          ("password", VString "twixrox")]))
  = Returned
      (LoginRoute.badRequest
         (VObject [("formError", VString "Form not submitted correctly.")])).
Proof. reflexivity. Qed.

(** kody adds a joke: one row more in the table, owned by kody. *)
Example new_joke_stored :
  site_jokes
    (final (run site_oracle (JokesNewRoute.action post)
                (site (Some "user-i")
                      [("name", VString "abc");
                       ("content", VString "1234567890")])))
  = [mkJoke "joke-i" "user-i" "abc" "1234567890"].
Proof. reflexivity. Qed.

(** Both fields too short: both entries of [fieldErrors] are set. *)
Example new_joke_both_short :
  result (run site_oracle (JokesNewRoute.action post)
              (site (Some "user-i")
                    [("name", VString "ab"); ("content", VString "123456789")]))
  = Returned
      (JokesNewRoute.badRequest
         (VObject
            [("fieldErrors",
              VObject [("name", VString "That joke's name is too short");
                       ("content", VString "That joke is too short")]);
             ("fields",
              VObject [("name", VString "ab");
                       ("content", VString "123456789")])])).
Proof. reflexivity. Qed.

(** A call that throws ends the action with what was thrown. *)
Example store_failure :
  result
    (run (fun c (w : unit) =>
            match c return outcome (answer c) * unit with
            | CGetUserId _ => (Returned (Some "user-i"), w)
            | CFormData _ =>
                (Returned [("name", VString "abc");
                           ("content", VString "1234567890")], w)
            | _ => (Raised (ThrownError "connection lost"), w)
            end)
         (JokesNewRoute.action post) tt)
  = Raised (ThrownError "connection lost").
Proof. reflexivity. Qed.

(** ** The new-joke action in any environment *)

Section NewJokeAnyEnvironment.

Context {World : Type}.
Variable oracle : forall c : call, World -> outcome (answer c) * World.
Variable request : Request.

(** Whatever the environment answers, the run of the action is one of the
    paths of [new_joke_path]. *)
Lemma action_path (w : World) :
  new_joke_path oracle request w (run oracle (JokesNewRoute.action request) w).
Proof.
  unfold JokesNewRoute.action, requireUserId, getUserId, formData, db_joke_create.
  cbn.
  destruct (oracle (CGetUserId request) w) as [[[userId |] | e] w1] eqn:Eu; cbn;
    [| now apply path_no_user | now apply path_session_throws].
  destruct (oracle (CFormData request) w1) as [[form | e] w2] eqn:Ef; cbn;
    [| now apply (path_form_throws _ _ _ userId e w1 w2)].
  destruct (FormData_get "name" form) as [| | | | n | |] eqn:En;
    try (apply (path_malformed _ _ _ userId form w1 w2); trivial;
         left; rewrite En; discriminate).
  destruct (FormData_get "content" form) as [| | | | c | |] eqn:Ec;
    try (apply (path_malformed _ _ _ userId form w1 w2); trivial;
         right; rewrite Ec; discriminate).
  destruct (validateJokeName_spec n) as [[Hn Hm] | [Hn Hv]].
  - pose proof (is_message_truthy _ Hm) as Ht. rewrite Ht. cbn.
    apply (path_invalid _ _ _ userId form w1 w2 n c); trivial.
    unfold joke_invalid. auto.
  - destruct (validateJokeContent_spec c) as [[Hc Hm] | [Hc Hv']].
    + pose proof (is_message_truthy _ Hm) as Ht. rewrite Ht, orb_true_r. cbn.
      apply (path_invalid _ _ _ userId form w1 w2 n c); trivial.
      unfold joke_invalid. auto.
    + rewrite Hv, Hv'. cbn.
      destruct (oracle (CJokeCreate n c userId) w2) as [[joke | e] w3] eqn:Ej;
        cbn.
      * apply (path_created _ _ _ userId form w1 w2 w3 n c joke); trivial.
        unfold joke_accepted. auto.
      * apply (path_store_throws _ _ _ userId form w1 w2 w3 n c e); trivial.
        unfold joke_accepted. auto.
Qed.

Local Abbreviation session := (EvCall (CGetUserId request)).
Local Abbreviation form_read := (EvCall (CFormData request)).

(** X1. In any environment, a joke reaches the store only validated and
    only for the session's user: every [create] call of a run carries the
    name and content the form held as strings, of length 3 and 10 at
    least, and as owner the id that [getUserId] answered for the
    request. *)
Theorem create_only_validated (w : World) (name content owner : string) :
  In (EvCall (CJokeCreate name content owner))
     (trace (run oracle (JokesNewRoute.action request) w)) ->
  exists (form : FormData) (w1 w2 : World),
    oracle (CGetUserId request) w = (Returned (Some owner), w1)
    /\ oracle (CFormData request) w1 = (Returned form, w2)
    /\ joke_accepted form name content.
Proof.
  destruct (action_path w) as
    [e v1 Eu | v1 Eu | u e v1 v2 Eu Ef | u f v1 v2 Eu Ef Hm
     | u f v1 v2 n c Eu Ef Hi | u f v1 v2 v3 n c e Eu Ef Ha Ej
     | u f v1 v2 v3 n c j Eu Ef Ha Ej];
    intros H; simpl in H;
    repeat (destruct H as [H | H]; [try discriminate H |]);
    try contradiction H;
    injection H as -> -> ->; exists f, v1, v2; auto.
Qed.

(** X2. In any environment the action makes its calls in one fixed order
    and stops at the first that ends it: the session lookup, then the form
    read, then at most one [create].  It never logs in, registers, looks a
    user up or commits a session. *)
Theorem action_call_order (w : World) :
  trace (run oracle (JokesNewRoute.action request) w) = [session]
  \/ trace (run oracle (JokesNewRoute.action request) w) = [session; form_read]
  \/ (exists name content userId : string,
        trace (run oracle (JokesNewRoute.action request) w)
        = [session; form_read; EvCall (CJokeCreate name content userId)]).
Proof.
  destruct (action_path w); simpl; eauto 7.
Qed.

(** X3. In any environment, a response the action returns is either a
    400, and then the store was not called, or a 302 whose only header is
    [Location: /jokes/<id>] with the id of the joke the one [create] call
    answered. *)
Theorem action_response_kinds (w : World) (r : Response) :
  result (run oracle (JokesNewRoute.action request) w) = Returned r ->
  (status r = 400
   /\ count is_joke_create
            (trace (run oracle (JokesNewRoute.action request) w)) = 0)
  \/ (exists (name content userId : string) (joke : Joke) (w2 w3 : World),
        oracle (CJokeCreate name content userId) w2 = (Returned joke, w3)
        /\ status r = 302
        /\ headers r = [("Location", "/jokes/" ++ joke_id joke)]
        /\ final (run oracle (JokesNewRoute.action request) w) = w3
        /\ count is_joke_create
                 (trace (run oracle (JokesNewRoute.action request) w)) = 1).
Proof.
  destruct (action_path w); simpl; intros [= <-]; auto.
  right. exists name, content, userId, joke, w2, w3. auto.
Qed.

(** X4. A submission in which a field is missing or is a file is answered
    with the form-level error alone: the payload has no [fieldErrors] and
    echoes no [fields], whatever the other field holds. *)
Theorem malformed_joke_payload
    (userId : string) (form : FormData) (w w1 w2 : World) :
  oracle (CGetUserId request) w = (Returned (Some userId), w1) ->
  oracle (CFormData request) w1 = (Returned form, w2) ->
  joke_malformed form ->
  exists r : Response,
    result (run oracle (JokesNewRoute.action request) w) = Returned r
    /\ body r = VObject [("formError", VString "Form not submitted correctly.")]
    /\ prop "fieldErrors" (body r) = VUndefined
    /\ prop "fields" (body r) = VUndefined.
Proof.
  intros Hu Hf Hbad.
  destruct (action_path w) as
    [e v1 Eu | v1 Eu | u e v1 v2 Eu Ef | u f v1 v2 Eu Ef Hm
     | u f v1 v2 n c Eu Ef Hi | u f v1 v2 v3 n c e Eu Ef Ha Ej
     | u f v1 v2 v3 n c j Eu Ef Ha Ej];
    rewrite Hu in Eu; try discriminate Eu;
    injection Eu as <- <-; rewrite Hf in Ef; try discriminate Ef;
    injection Ef as <- <-.
  - eexists. repeat split.
  - exfalso. destruct Hi as (Hn & Hc & _).
    destruct Hbad as [H | H]; apply H; [rewrite Hn | rewrite Hc]; reflexivity.
  - exfalso. destruct Ha as (Hn & Hc & _).
    destruct Hbad as [H | H]; apply H; [rewrite Hn | rewrite Hc]; reflexivity.
  - exfalso. destruct Ha as (Hn & Hc & _).
    destruct Hbad as [H | H]; apply H; [rewrite Hn | rewrite Hc]; reflexivity.
Qed.

(** X5. In any environment, when the action ends by a throw, what it
    throws is what its last call threw, and the run stops there; the one
    throw of its own is the 401 of [requireUserId] (modelled from the
    spec) when [getUserId] answers no user.  A failure of the form read or
    of the store is never turned into a response. *)
Theorem action_throw_origin (w : World) (e : thrown) :
  result (run oracle (JokesNewRoute.action request) w) = Raised e ->
  (exists w1 : World,
      oracle (CGetUserId request) w = (Returned None, w1)
      /\ e = ThrownResponse (mkResponse 401 [] (VString "Unauthorized"))
      /\ trace (run oracle (JokesNewRoute.action request) w) = [session])
  \/ (exists (c : call) (before : list event) (wa wb : World),
        oracle c wa = (Raised e, wb)
        /\ trace (run oracle (JokesNewRoute.action request) w)
           = (before ++ [EvCall c])%list
        /\ final (run oracle (JokesNewRoute.action request) w) = wb).
Proof.
  destruct (action_path w); simpl; intros [= <-].
  - right. exists (CGetUserId request), [], w, w1. auto.
  - left. exists w1. auto.
  - right. exists (CFormData request), [session], w1, w2. auto.
  - right.
    exists (CJokeCreate name content userId), [session; form_read], w2, w3.
    auto.
Qed.

End NewJokeAnyEnvironment.

Lemma create_only_validated_witness :
  exists (form : FormData) (w1 w2 : Site),
    site_oracle (CGetUserId post)
                (site (Some "user-i")
                      [("name", VString "abc");
                       ("content", VString "1234567890")])
    = (Returned (Some "user-i"), w1)
    /\ site_oracle (CFormData post) w1 = (Returned form, w2)
    /\ joke_accepted form "abc" "1234567890".
Proof.
  apply (create_only_validated site_oracle post).
  simpl. right; right; left. reflexivity.
Defined.

Lemma action_response_kinds_witness :
  (status (redirect "/jokes/joke-i" []) = 400
   /\ count is_joke_create
        (trace (run site_oracle (JokesNewRoute.action post)
                  (site (Some "user-i")
                        [("name", VString "abc");
                         ("content", VString "1234567890")]))) = 0)
  \/ (exists (name content userId : string) (joke : Joke) (w2 w3 : Site),
        site_oracle (CJokeCreate name content userId) w2 = (Returned joke, w3)
        /\ status (redirect "/jokes/joke-i" []) = 302
        /\ headers (redirect "/jokes/joke-i" [])
           = [("Location", "/jokes/" ++ joke_id joke)]
        /\ final (run site_oracle (JokesNewRoute.action post)
                     (site (Some "user-i")
                           [("name", VString "abc");
                            ("content", VString "1234567890")])) = w3
        /\ count is_joke_create
             (trace (run site_oracle (JokesNewRoute.action post)
                       (site (Some "user-i")
                             [("name", VString "abc");
                              ("content", VString "1234567890")]))) = 1).
Proof.
  apply (action_response_kinds site_oracle post). reflexivity.
Defined.

Lemma malformed_joke_payload_witness :
  exists r : Response,
    result (run site_oracle (JokesNewRoute.action post)
                (site (Some "user-i")
                      [("name", VString "a"); ("content", VFile "joke.txt")]))
    = Returned r
    /\ body r = VObject [("formError", VString "Form not submitted correctly.")]
    /\ prop "fieldErrors" (body r) = VUndefined
    /\ prop "fields" (body r) = VUndefined.
Proof.
  apply (malformed_joke_payload site_oracle post "user-i"
           [("name", VString "a"); ("content", VFile "joke.txt")]
           (site (Some "user-i") _) (site (Some "user-i") _)
           (site (Some "user-i") _) eq_refl eq_refl).
  right. simpl. discriminate.
Defined.

Lemma action_throw_origin_witness :
  (exists w1 : unit,
      failing_store (CGetUserId post) tt = (Returned None, w1)
      /\ ThrownError "connection lost"
         = ThrownResponse (mkResponse 401 [] (VString "Unauthorized"))
      /\ trace (run failing_store (JokesNewRoute.action post) tt)
         = [EvCall (CGetUserId post)])
  \/ (exists (c : call) (before : list event) (wa wb : unit),
        failing_store c wa = (Raised (ThrownError "connection lost"), wb)
        /\ trace (run failing_store (JokesNewRoute.action post) tt)
           = (before ++ [EvCall c])%list
        /\ final (run failing_store (JokesNewRoute.action post) tt) = wb).
Proof.
  apply (action_throw_origin failing_store post). reflexivity.
Defined.

(** ** The login action in any environment *)

Section LoginAnyEnvironment.

Context {World : Type}.
Variable oracle : forall c : call, World -> outcome (answer c) * World.
Variable request : Request.


(** Whatever the environment answers, the run of the action is one of the
    paths of [login_path]. *)
Lemma login_action_path (w : World) :
  login_path oracle request w (run oracle (LoginRoute.action request) w).
Proof.
  unfold LoginRoute.action, formData, login, register, db_user_findFirst,
    createUserSession.
  cbn.
  destruct (oracle (CFormData request) w) as [[form | e] w1] eqn:Ef; cbn;
    [| now apply path_read_throws].
  rewrite run_bind.
  destruct (run_validateUrl oracle (FormData_get "redirectTo" form) w1)
    as (t & Hrun & Hin & _).
  rewrite Hrun. cbn.
  destruct (FormData_get "loginType" form) as [| | | | lt | |] eqn:El;
    try (apply path_auth_malformed; trivial;
         left; rewrite El; discriminate).
  destruct (FormData_get "username" form) as [| | | | u | |] eqn:Eu;
    try (apply path_auth_malformed; trivial;
         right; left; rewrite Eu; discriminate).
  destruct (FormData_get "password" form) as [| | | | p | |] eqn:Ep;
    try (apply path_auth_malformed; trivial;
         right; right; rewrite Ep; discriminate).
  assert (Hfields : auth_fields form lt u p) by (unfold auth_fields; auto).
  destruct (validateUsername_spec (VString u)) as [(_ & _ & _ & Hvu) | [_ Hmu]].
  2:{ pose proof (is_message_truthy _ Hmu) as Ht. rewrite Ht. cbn.
      apply (path_auth_invalid _ _ _ form w1 lt u p); trivial.
      split; auto. }
  destruct (validatePassword_spec (VString p)) as [(_ & _ & _ & Hvp) | [_ Hmp]].
  2:{ pose proof (is_message_truthy _ Hmp) as Ht. rewrite Ht, orb_true_r. cbn.
      apply (path_auth_invalid _ _ _ form w1 lt u p); trivial.
      split; auto. }
  rewrite Hvu, Hvp. cbn.
  assert (Hvalid : auth_valid form lt u p) by (unfold auth_valid; auto).
  destruct (String.eqb_spec lt "login") as [-> | Hl]; cbn.
  { destruct (oracle (CLogin u p) w1) as [[[user |] | e] w2] eqn:Elog; cbn.
    - destruct (oracle (CCommitSession (user_id user)) w2)
        as [[cookie | e] w3] eqn:Ec; cbn.
      + apply (path_login_session _ _ _ form w1 w2 w3 u p t cookie user);
          trivial.
        rewrite Hrun. reflexivity.
      + now apply (path_login_commit_throws _ _ _ form w1 w2 w3 u p user e).
    - now apply (path_login_refused _ _ _ form w1 w2 u p).
    - now apply (path_login_throws _ _ _ form w1 w2 u p e). }
  destruct (String.eqb_spec lt "register") as [-> | Hr]; cbn.
  { destruct (oracle (CUserFindFirst u) w1) as [[[existing |] | e] w2] eqn:Efind;
      cbn.
    - now apply (path_user_exists _ _ _ form w1 w2 u p existing).
    - destruct (oracle (CRegister u p) w2) as [[[user |] | e] w3] eqn:Ereg; cbn.
      + destruct (oracle (CCommitSession (user_id user)) w3)
          as [[cookie | e] w4] eqn:Ec; cbn.
        * apply (path_register_session _ _ _ form w1 w2 w3 w4 u p t cookie user);
            trivial.
          rewrite Hrun. reflexivity.
        * now apply
            (path_register_commit_throws _ _ _ form w1 w2 w3 w4 u p user e).
      + now apply (path_register_nothing _ _ _ form w1 w2 w3 u p).
      + now apply (path_register_throws _ _ _ form w1 w2 w3 u p e).
    - now apply (path_find_throws _ _ _ form w1 w2 u p e). }
  now apply (path_type_invalid _ _ _ form w1 lt u p).
Qed.

Lemma auth_valid_lengths (form : FormData) (lt u p : string) :
  auth_valid form lt u p ->
  3 <= String.length u /\ 6 <= String.length p.
Proof.
  intros (_ & Hu & Hp).
  destruct (validateUsername_spec (VString u))
    as [(s & [= <-] & Hs & _) | [_ Hm]];
    [| rewrite Hu in Hm; now apply undefined_not_message in Hm].
  destruct (validatePassword_spec (VString p))
    as [(s & [= <-] & Hs' & _) | [_ Hm]];
    [| rewrite Hp in Hm; now apply undefined_not_message in Hm].
  auto.
Qed.

Lemma fields_not_malformed (form : FormData) (lt u p : string) :
  auth_fields form lt u p -> ~ auth_malformed form.
Proof.
  intros (Hl & Hu & Hp) [H | [H | H]]; apply H;
    [rewrite Hl | rewrite Hu | rewrite Hp]; reflexivity.
Qed.

Lemma valid_not_invalid (form : FormData) (lt u p lt' u' p' : string) :
  auth_valid form lt u p -> ~ auth_invalid form lt' u' p'.
Proof.
  intros ((Hl & Hu & Hp) & Hvu & Hvp) ((Hl' & Hu' & Hp') & Hm).
  rewrite Hu in Hu'. rewrite Hp in Hp'.
  injection Hu' as <-. injection Hp' as <-.
  rewrite Hvu, Hvp in Hm.
  destruct Hm as [Hm | Hm]; now apply undefined_not_message in Hm.
Qed.

(** Reading an event off a concrete trace. *)
Ltac in_trace H :=
  unfold opening in H; simpl in H;
  repeat (destruct H as [H | H]; [try discriminate H |]);
  try contradiction H.

(** X6. In any environment, credentials reach [login] or [register] only
    validated: every such call carries the username and password the form
    held as strings, of length 3 and 6 at least. *)
Theorem auth_calls_validated (w : World) (username password : string) :
  In (EvCall (CLogin username password))
     (trace (run oracle (LoginRoute.action request) w))
  \/ In (EvCall (CRegister username password))
        (trace (run oracle (LoginRoute.action request) w)) ->
  exists (form : FormData) (w1 : World),
    oracle (CFormData request) w = (Returned form, w1)
    /\ FormData_get "username" form = VString username
    /\ FormData_get "password" form = VString password
    /\ 3 <= String.length username
    /\ 6 <= String.length password.
Proof.
  destruct (login_action_path w); intros [Hev | Hev]; in_trace Hev;
    injection Hev as <- <-;
    match goal with
    | Hv : auth_valid ?f _ _ _, Hf : oracle _ _ = (Returned ?f, ?v) |- _ =>
        exists f, v;
        destruct (auth_valid_lengths _ _ _ _ Hv);
        destruct Hv as ((_ & ? & ?) & _); auto
    end.
Qed.

(** X7. In any environment, [register] is called only for a submission of
    login type ['register'], and only right after the store was asked for
    a user of that username and answered none.  *)
Theorem register_after_lookup (w : World) (username password : string) :
  In (EvCall (CRegister username password))
     (trace (run oracle (LoginRoute.action request) w)) ->
  exists (form : FormData) (w1 w2 : World) (rest : list event),
    oracle (CFormData request) w = (Returned form, w1)
    /\ FormData_get "loginType" form = VString "register"
    /\ oracle (CUserFindFirst username) w1 = (Returned None, w2)
    /\ trace (run oracle (LoginRoute.action request) w)
       = (opening request form
          ++ EvCall (CUserFindFirst username)
             :: EvCall (CRegister username password) :: rest)%list.
Proof.
  destruct (login_action_path w); intros Hev; in_trace Hev;
    injection Hev as <- <-;
    match goal with
    | Hv : auth_valid ?f _ _ _, Hf : oracle _ _ = (Returned ?f, ?v),
      Hn : oracle (CUserFindFirst _) _ = (Returned None, ?v') |- _ =>
        exists f, v, v'; destruct Hv as ((? & _ & _) & _);
        eexists; repeat split; eauto
    end.
Qed.

(** X8. In any environment, a run that calls [login] touches neither the
    user table nor [register]: the two login types never mix. *)
Theorem login_leaves_users_alone (w : World) (username password : string) :
  In (EvCall (CLogin username password))
     (trace (run oracle (LoginRoute.action request) w)) ->
  forall c : call,
    In (EvCall c) (trace (run oracle (LoginRoute.action request) w)) ->
    c = CFormData request
    \/ c = CLogin username password
    \/ (exists userId : string, c = CCommitSession userId).
Proof.
  destruct (login_action_path w); intros Hev; in_trace Hev;
    injection Hev as <- <-; intros c Hc; in_trace Hc;
    injection Hc as <-; eauto.
Qed.

End LoginAnyEnvironment.

Lemma auth_calls_validated_witness :
  exists (form : FormData) (w1 : Site),
    site_oracle (CFormData post_login)
                (site None (auth_form "login" "kody" "twixrox"))
    = (Returned form, w1)
    /\ FormData_get "username" form = VString "kody"
    /\ FormData_get "password" form = VString "twixrox"
    /\ 3 <= String.length "kody"
    /\ 6 <= String.length "twixrox".
Proof.
  apply (auth_calls_validated site_oracle post_login).
  left. simpl. right; right; left. reflexivity.
Defined.

Lemma register_after_lookup_witness :
  exists (form : FormData) (w1 w2 : Site) (rest : list event),
    site_oracle (CFormData post_login)
                (site None (auth_form "register" "bob" "secret1"))
    = (Returned form, w1)
    /\ FormData_get "loginType" form = VString "register"
    /\ site_oracle (CUserFindFirst "bob") w1 = (Returned None, w2)
    /\ trace (run site_oracle (LoginRoute.action post_login)
                  (site None (auth_form "register" "bob" "secret1")))
       = (opening post_login form
          ++ EvCall (CUserFindFirst "bob")
             :: EvCall (CRegister "bob" "secret1") :: rest)%list.
Proof.
  apply (register_after_lookup site_oracle post_login).
  simpl. right; right; right; left. reflexivity.
Defined.

Lemma login_leaves_users_alone_witness :
  CCommitSession "user-i" = CFormData post_login
  \/ CCommitSession "user-i" = CLogin "kody" "twixrox"
  \/ (exists userId : string, CCommitSession "user-i" = CCommitSession userId).
Proof.
  apply (login_leaves_users_alone site_oracle post_login
           (site None (auth_form "login" "kody" "twixrox"))
           "kody" "twixrox").
  - simpl. right; right; left. reflexivity.
  - simpl. right; right; right; left. reflexivity.
Defined.

(** ** The rejections and the answers of the login action *)

Section LoginAnswers.

Context {World : Type}.
Variable oracle : forall c : call, World -> outcome (answer c) * World.
Variable request : Request.


Lemma auth_fields_unique (form : FormData) (lt u p lt' u' p' : string) :
  auth_fields form lt u p -> auth_fields form lt' u' p' ->
  lt' = lt /\ u' = u /\ p' = p.
Proof.
  intros (El & Eu & Ep) (El' & Eu' & Ep').
  rewrite El in El'. rewrite Eu in Eu'. rewrite Ep in Ep'.
  injection El' as ->. injection Eu' as ->. injection Ep' as ->. auto.
Qed.

(** Keep the paths whose form is the one the environment answered. *)
Ltac same_form Hf :=
  repeat match goal with
         | H : oracle (CFormData request) _ = _ |- _ =>
             rewrite Hf in H; try discriminate H;
             injection H as <- <-
         end.

(** Identify the fields of a path with the fields [Hfields] names. *)
Ltac same_fields Hfields :=
  match goal with
  | Hv : auth_valid _ _ _ _ |- _ =>
      destruct (auth_fields_unique _ _ _ _ _ _ _ Hfields (proj1 Hv))
        as (? & ? & ?); subst
  | Hv : auth_invalid _ _ _ _ |- _ =>
      destruct (auth_fields_unique _ _ _ _ _ _ _ Hfields (proj1 Hv))
        as (? & ? & ?); subst
  end.

(** X9. A login type other than the exact strings ['login'] and
    ['register'] (another word, another case, the empty string) is
    answered, once the two fields pass their validators, with a response
    of status 400 whose payload has the form-level error "Login type
    invalid", the three submitted fields echoed and no [fieldErrors]; the
    run ends after the form read and the console line, so no collaborator
    is called. *)
Theorem login_type_rejected
    (form : FormData) (w w1 : World) (loginType username password : string) :
  oracle (CFormData request) w = (Returned form, w1) ->
  auth_valid form loginType username password ->
  loginType <> "login" ->
  loginType <> "register" ->
  run oracle (LoginRoute.action request) w
  = mkRun (Returned (LoginRoute.badRequest
                       (auth_form_error loginType username password
                                        "Login type invalid")))
          w1 (opening request form)
  /\ (exists r : Response,
        result (run oracle (LoginRoute.action request) w) = Returned r
        /\ status r = 400
        /\ prop "formError" (body r) = VString "Login type invalid"
        /\ prop "fields" (body r) = auth_echo loginType username password
        /\ prop "fieldErrors" (body r) = VUndefined)
  /\ trace (run oracle (LoginRoute.action request) w)
     = [EvCall (CFormData request);
        EvLog (default_arg (VString "/jokes")
                           (FormData_get "redirectTo" form))].
Proof.
  intros Hf (Hfields & Hvu & Hvp) Hl Hr.
  destruct (login_action_path oracle request w); same_form Hf;
    try (exfalso; eapply fields_not_malformed; eassumption);
    same_fields Hfields;
    try (exfalso; eapply valid_not_invalid; [| eassumption];
         unfold auth_valid; eauto);
    try contradiction.
  split; [reflexivity |]. split; [| reflexivity].
  eexists. repeat split.
Qed.

(** X10. A login form in which one of the three fields is missing or is
    a file is answered with a response of status 400 whose payload is the
    form-level error "Form not submitted correctly." alone: no [fields]
    (the password is not echoed) and no [fieldErrors]; no collaborator is
    called; the [redirectTo] field has been validated and written to the
    console all the same, since that comes before the check. *)
Theorem login_malformed_payload (form : FormData) (w w1 : World) :
  oracle (CFormData request) w = (Returned form, w1) ->
  auth_malformed form ->
  run oracle (LoginRoute.action request) w
  = mkRun (Returned
             (LoginRoute.badRequest
                (VObject [("formError",
                           VString "Form not submitted correctly.")])))
          w1
          [EvCall (CFormData request);
           EvLog (default_arg (VString "/jokes")
                              (FormData_get "redirectTo" form))]
  /\ (exists r : Response,
        result (run oracle (LoginRoute.action request) w) = Returned r
        /\ status r = 400
        /\ body r
           = VObject [("formError", VString "Form not submitted correctly.")]
        /\ prop "formError" (body r)
           = VString "Form not submitted correctly."
        /\ prop "fields" (body r) = VUndefined
        /\ prop "fieldErrors" (body r) = VUndefined).
Proof.
  intros Hf Hbad.
  destruct (login_action_path oracle request w); same_form Hf;
    try (split; [reflexivity | eexists; repeat split; reflexivity]);
    exfalso;
    match goal with
    | Hv : auth_valid form _ _ _ |- _ =>
        destruct Hv as (Hfields & _)
    | Hv : auth_invalid form _ _ _ |- _ =>
        destruct Hv as (Hfields & _)
    end;
    exact (fields_not_malformed _ _ _ _ Hfields Hbad).
Qed.

(** X11. When a validator of the login form answers a message, the
    payload's [fieldErrors] holds each validator's answer under its field,
    so an entry is set exactly when that field failed, and there is no
    [formError]; the check comes before the login type is looked at, so no
    collaborator is called even for ['login'] or ['register'] and an
    invalid login type goes unreported. *)
Theorem login_field_errors
    (form : FormData) (w w1 : World) (loginType username password : string) :
  oracle (CFormData request) w = (Returned form, w1) ->
  auth_invalid form loginType username password ->
  exists r : Response,
    run oracle (LoginRoute.action request) w
    = mkRun (Returned r) w1 (opening request form)
    /\ status r = 400
    /\ (prop "username" (prop "fieldErrors" (body r)) <> VUndefined
        <-> (String.length username < 3)%nat)
    /\ (prop "password" (prop "fieldErrors" (body r)) <> VUndefined
        <-> (String.length password < 6)%nat)
    /\ prop "formError" (body r) = VUndefined.
Proof.
  intros Hf (Hfields & Hmsg).
  destruct (login_action_path oracle request w); same_form Hf;
    try (exfalso; eapply fields_not_malformed; eassumption);
    same_fields Hfields;
    try (exfalso; eapply valid_not_invalid; [eassumption |];
         unfold auth_invalid; eauto).
  eexists. split; [reflexivity |]. split; [reflexivity |]. cbn.
  split; [| split; [| reflexivity]].
  - destruct (validateUsername_spec (VString username))
      as [(s & [= <-] & Hs & ->) | [[Hn | (s & [= <-] & Hs)] Hm]].
    + split; [intros H; now contradiction H | lia].
    + exfalso. apply Hn. reflexivity.
    + destruct Hm as (m & -> & _). split; [trivial | discriminate].
  - destruct (validatePassword_spec (VString password))
      as [(s & [= <-] & Hs & ->) | [[Hn | (s & [= <-] & Hs)] Hm]].
    + split; [intros H; now contradiction H | lia].
    + exfalso. apply Hn. reflexivity.
    + destruct Hm as (m & -> & _). split; [trivial | discriminate].
Qed.

(** X12. In any environment, every 400 the action answers to a form whose
    three fields are strings echoes them all in [fields], the password
    unchanged: on a field error, on wrong credentials, on an existing
    user, on an invalid login type and on "Not implemented" alike. *)
Theorem rejections_echo_fields
    (form : FormData) (w w1 : World) (loginType username password : string)
    (r : Response) :
  oracle (CFormData request) w = (Returned form, w1) ->
  auth_fields form loginType username password ->
  result (run oracle (LoginRoute.action request) w) = Returned r ->
  status r = 400 ->
  prop "fields" (body r) = auth_echo loginType username password.
Proof.
  intros Hf Hfields.
  destruct (login_action_path oracle request w); same_form Hf;
    try (exfalso; eapply fields_not_malformed; eassumption);
    same_fields Hfields;
    simpl; intros [= <-]; try discriminate; reflexivity.
Qed.

(** X13. In any environment the action throws nothing of its own: when a
    run ends by a throw, its last call threw it and the run stopped there.
    So as long as no collaborator fails, the action answers a response. *)
Theorem login_throw_origin (w : World) (e : thrown) :
  result (run oracle (LoginRoute.action request) w) = Raised e ->
  exists (c : call) (before : list event) (wa wb : World),
    oracle c wa = (Raised e, wb)
    /\ trace (run oracle (LoginRoute.action request) w)
       = (before ++ [EvCall c])%list
    /\ final (run oracle (LoginRoute.action request) w) = wb.
Proof.
  destruct (login_action_path oracle request w);
    match goal with
    | |- context [trace (mkRun _ _ ?t)] =>
        intros [= <-];
        match goal with
        | Hc : oracle ?c ?wa = (Raised _, ?wb) |- _ =>
            exists c, (removelast t), wa, wb;
            split; [exact Hc | split; reflexivity]
        end
    end.
Qed.

(** X14. In any environment, a response the action returns is either a
    400 or the redirect of [createUserSession] (modelled from the spec),
    whose [Location] is one of ['/jokes'], ['/'], ['https://remix.run']
    and whose cookie is the session committed for the id of the user that
    [login] or [register] answered: the posted [redirectTo] never decides
    where the browser is sent. *)
Theorem login_response_kinds (w : World) (r : Response) :
  result (run oracle (LoginRoute.action request) w) = Returned r ->
  status r = 400
  \/ (exists (target cookie : string) (user : User) (wa wb wc wd : World)
             (username password : string),
        status r = 302
        /\ headers r = [("Set-Cookie", cookie); ("Location", target)]
        /\ In target ["/jokes"; "/"; "https://remix.run"]
        /\ (oracle (CLogin username password) wa = (Returned (Some user), wb)
            \/ oracle (CRegister username password) wa
               = (Returned (Some user), wb))
        /\ oracle (CCommitSession (user_id user)) wc = (Returned cookie, wd)).
Proof.
  destruct (login_action_path oracle request w); simpl; intros [= <-];
    auto; right;
    match goal with
    | Hin : In ?t urls,
      Hc : oracle (CCommitSession (user_id ?u)) ?wc = (Returned ?k, ?wd),
      Hu : oracle _ ?wa = (Returned (Some ?u), ?wb) |- _ =>
        exists t, k, u, wa, wb, wc, wd, username, password;
        repeat split; auto
    end.
Qed.

End LoginAnswers.

Section RedirectTarget.

Context {World : Type}.
Variable oracle : forall c : call, World -> outcome (answer c) * World.

(** X15. [validateUrl] calls nothing and leaves the environment as it
    was; it writes one line to the console: ['/jokes'] when the argument
    is [undefined] (the default has taken its place), and otherwise the
    argument as received, allow-listed or not; and validating its own
    result gives that result again. *)
Theorem validateUrl_effects (x : value) (w : World) :
  exists t : string,
    run oracle (validateUrl x) w
    = mkRun (Returned t) w [EvLog (default_arg (VString "/jokes") x)]
    /\ result (run oracle (validateUrl (VString t)) w) = Returned t
    /\ final (run oracle (validateUrl x) w) = w
    /\ (x = VUndefined ->
        trace (run oracle (validateUrl x) w) = [EvLog (VString "/jokes")])
    /\ (x <> VUndefined ->
        trace (run oracle (validateUrl x) w) = [EvLog x]).
Proof.
  destruct (run_validateUrl oracle x w) as (t & Hrun & Hin & _).
  exists t. split; [exact Hrun |]. split.
  - destruct (run_validateUrl oracle (VString t) w)
      as (t' & Hrun' & _ & Hcase).
    rewrite Hrun'. simpl. f_equal.
    destruct Hcase as [[[= ->] _] | [_ Hno]]; [reflexivity |].
    exfalso. exact (Hno t Hin eq_refl).
  - rewrite Hrun. simpl. split; [reflexivity |]. split.
    + intros ->. reflexivity.
    + intros Hx. destruct x; try reflexivity. now contradiction Hx.
Qed.

End RedirectTarget.

Lemma validateUrl_effects_witness :
  trace (run site_oracle (validateUrl VUndefined) (site None []))
  = [EvLog (VString "/jokes")]
  /\ trace (run site_oracle (validateUrl (VString "https://evil.example"))
                (site None []))
     = [EvLog (VString "https://evil.example")].
Proof.
  split.
  - destruct (validateUrl_effects site_oracle VUndefined (site None []))
      as (t & _ & _ & _ & Hdefault & _).
    apply Hdefault. reflexivity.
  - destruct (validateUrl_effects site_oracle
                (VString "https://evil.example") (site None []))
      as (t & _ & _ & _ & _ & Hraw).
    apply Hraw. discriminate.
Defined.

Lemma login_type_rejected_witness :
  run site_oracle (LoginRoute.action post_login)
      (site None (auth_form "Login" "kody" "twixrox"))
  = mkRun (Returned (LoginRoute.badRequest
                       (auth_form_error "Login" "kody" "twixrox"
                                        "Login type invalid")))
          (site None (auth_form "Login" "kody" "twixrox"))
          (opening post_login (auth_form "Login" "kody" "twixrox"))
  /\ (exists r : Response,
        result (run site_oracle (LoginRoute.action post_login)
                    (site None (auth_form "Login" "kody" "twixrox")))
        = Returned r
        /\ status r = 400
        /\ prop "formError" (body r) = VString "Login type invalid"
        /\ prop "fields" (body r) = auth_echo "Login" "kody" "twixrox"
        /\ prop "fieldErrors" (body r) = VUndefined)
  /\ trace (run site_oracle (LoginRoute.action post_login)
                (site None (auth_form "Login" "kody" "twixrox")))
     = [EvCall (CFormData post_login);
        EvLog (default_arg (VString "/jokes")
                 (FormData_get "redirectTo"
                    (auth_form "Login" "kody" "twixrox")))].
Proof.
  apply (login_type_rejected site_oracle post_login
           (auth_form "Login" "kody" "twixrox")
           (site None (auth_form "Login" "kody" "twixrox"))
           (site None (auth_form "Login" "kody" "twixrox"))
           "Login" "kody" "twixrox").
  - reflexivity.
  - unfold auth_valid, auth_fields. repeat split.
  - discriminate.
  - discriminate.
Defined.

Lemma login_malformed_payload_witness :
  run site_oracle (LoginRoute.action post_login)
      (site None [("loginType", VString "login");
                  ("username", VString "kody")])
  = mkRun (Returned
             (LoginRoute.badRequest
                (VObject [("formError",
                           VString "Form not submitted correctly.")])))
          (site None [("loginType", VString "login");
                      ("username", VString "kody")])
          [EvCall (CFormData post_login);
           EvLog (default_arg (VString "/jokes")
                    (FormData_get "redirectTo"
                       [("loginType", VString "login");
                        ("username", VString "kody")]))]
  /\ (exists r : Response,
        result (run site_oracle (LoginRoute.action post_login)
                    (site None [("loginType", VString "login");
                                ("username", VString "kody")]))
        = Returned r
        /\ status r = 400
        /\ body r
           = VObject [("formError", VString "Form not submitted correctly.")]
        /\ prop "formError" (body r)
           = VString "Form not submitted correctly."
        /\ prop "fields" (body r) = VUndefined
        /\ prop "fieldErrors" (body r) = VUndefined).
Proof.
  apply (login_malformed_payload site_oracle post_login
           [("loginType", VString "login"); ("username", VString "kody")]
           (site None [("loginType", VString "login");
                       ("username", VString "kody")])).
  - reflexivity.
  - right; right. simpl. discriminate.
Defined.

Lemma login_field_errors_witness :
  exists r : Response,
    run site_oracle (LoginRoute.action post_login)
        (site None (auth_form "logout" "kody" "twix"))
    = mkRun (Returned r) (site None (auth_form "logout" "kody" "twix"))
            (opening post_login (auth_form "logout" "kody" "twix"))
    /\ status r = 400
    /\ (prop "username" (prop "fieldErrors" (body r)) <> VUndefined
        <-> (String.length "kody" < 3)%nat)
    /\ (prop "password" (prop "fieldErrors" (body r)) <> VUndefined
        <-> (String.length "twix" < 6)%nat)
    /\ prop "formError" (body r) = VUndefined.
Proof.
  apply (login_field_errors site_oracle post_login
           (auth_form "logout" "kody" "twix")
           (site None (auth_form "logout" "kody" "twix"))
           (site None (auth_form "logout" "kody" "twix"))
           "logout" "kody" "twix").
  - reflexivity.
  - split; [unfold auth_fields; repeat split |].
    right. eexists. split; [reflexivity | discriminate].
Defined.

Lemma rejections_echo_fields_witness :
  prop "fields"
       (body (LoginRoute.badRequest
                (auth_form_error "login" "kody" "whatever"
                   "Username/Password combination is incorrect.")))
  = auth_echo "login" "kody" "whatever".
Proof.
  apply (rejections_echo_fields site_oracle post_login
           (auth_form "login" "kody" "whatever")
           (site None (auth_form "login" "kody" "whatever"))
           (site None (auth_form "login" "kody" "whatever"))).
  - reflexivity.
  - unfold auth_fields. repeat split.
  - reflexivity.
  - reflexivity.
Defined.

Lemma login_throw_origin_witness :
  exists (c : call) (before : list event) (wa wb : unit),
    failing_store c wa = (Raised (ThrownError "connection lost"), wb)
    /\ trace (run failing_store (LoginRoute.action post_login) tt)
       = (before ++ [EvCall c])%list
    /\ final (run failing_store (LoginRoute.action post_login) tt) = wb.
Proof.
  apply (login_throw_origin failing_store post_login). reflexivity.
Defined.

Lemma login_response_kinds_witness :
  status (redirect "/jokes" [("Set-Cookie", "RJ_session=user-i")]) = 400
  \/ (exists (target cookie : string) (user : User) (wa wb wc wd : Site)
             (username password : string),
        status (redirect "/jokes" [("Set-Cookie", "RJ_session=user-i")]) = 302
        /\ headers (redirect "/jokes" [("Set-Cookie", "RJ_session=user-i")])
           = [("Set-Cookie", cookie); ("Location", target)]
        /\ In target ["/jokes"; "/"; "https://remix.run"]
        /\ (site_oracle (CLogin username password) wa
            = (Returned (Some user), wb)
            \/ site_oracle (CRegister username password) wa
               = (Returned (Some user), wb))
        /\ site_oracle (CCommitSession (user_id user)) wc
           = (Returned cookie, wd)).
Proof.
  apply (login_response_kinds site_oracle post_login
           (site None (auth_form "login" "kody" "twixrox"))).
  reflexivity.
Defined.

(** ** The components *)

(** X16. The component shows the joke before the server has answered
    for exactly the submissions the action accepts (two strings, of length
    3 and 10 at least): what it returns is then a [JokeDisplay] element
    whose [joke] prop holds the submitted name and content, with [isOwner]
    true and [canDelete] false, and not the form.  For a submission the
    action would reject it returns the form (a [div]), as with no
    submission in flight. *)
Theorem optimistic_iff_accepted
    (formData : FormData) (actionData : value) (form : node) :
  NewJokeRoute None actionData = Returned form ->
  (forall name content : string,
      joke_accepted formData name content ->
      NewJokeRoute (Some formData) actionData
      = Returned (JokeDisplay_optimistic name content)
      /\ (exists shown : node,
            NewJokeRoute (Some formData) actionData = Returned shown
            /\ shown
               = Element "JokeDisplay"
                   [("joke", VObject [("name", VString name);
                                      ("content", VString content)]);
                    ("isOwner", VBool true);
                    ("canDelete", VBool false)]
                   []
            /\ attr "joke" shown
               = VObject [("name", VString name); ("content", VString content)]
            /\ attr "isOwner" shown = VBool true
            /\ attr "canDelete" shown = VBool false
            /\ shown <> form))
  /\ (joke_malformed formData
      \/ (exists name content : string, joke_invalid formData name content) ->
      NewJokeRoute (Some formData) actionData = Returned form)
  /\ (exists children : list node, form = Element "div" [] children).
Proof.
  unfold NewJokeRoute.
  destruct (negb (destructurable
                    (default_arg (VObject [])
                       (prop "fieldErrors" (nullish actionData (VObject [])))))
            || negb (destructurable
                       (default_arg (VObject [])
                          (prop "fields" (nullish actionData (VObject []))))));
    [discriminate |].
  intros [= <-]. split; [| split].
  3:{ unfold NewJokeRoute_form. eexists. reflexivity. }
  - intros name content (Hn & Hc & Hln & Hlc). rewrite Hn, Hc.
    destruct (validateJokeName_spec name) as [[? _] | [_ ->]]; [lia |].
    destruct (validateJokeContent_spec content) as [[? _] | [_ ->]]; [lia |].
    split; [reflexivity |].
    eexists. split; [reflexivity |].
    split; [reflexivity |]. split; [reflexivity |].
    split; [reflexivity |]. split; [reflexivity |].
    unfold NewJokeRoute_form. discriminate.
  - intros [[Hn | Hc] | (name & content & Hn & Hc & Hshort)].
    + destruct (FormData_get "name" formData); try reflexivity.
      exfalso. apply Hn. reflexivity.
    + destruct (FormData_get "content" formData);
        try (destruct (FormData_get "name" formData); reflexivity).
      exfalso. apply Hc. reflexivity.
    + rewrite Hn, Hc.
      destruct (validateJokeName_spec name) as [[_ Hm] | [? _]].
      * rewrite (is_message_truthy _ Hm). reflexivity.
      * destruct (validateJokeContent_spec content) as [[_ Hm] | [? _]];
          [| lia].
        rewrite (is_message_truthy _ Hm), andb_false_r. reflexivity.
Qed.

(** X18. In the form of the new-joke page, whatever the five values: the
    alert paragraph of a field is on the page exactly when the field's
    error is truthy, and exactly then the field has [aria-invalid] true and
    an [aria-errormessage] naming that paragraph; otherwise both are
    [undefined].  So [aria-errormessage] never names an element that is
    not there. *)
Theorem new_joke_alerts
    (nameValue contentValue nameError contentError formError : value) :
  let page :=
    NewJokeRoute_form nameValue contentValue nameError contentError formError in
  (if Boolean nameError
   then by_id "name-error" page
        = Some (Element "p" [("className", VString "form-validation-error");
                             ("role", VString "alert");
                             ("id", VString "name-error")]
                        [Expr nameError])
        /\ field_attr "name" "aria-errormessage" page = VString "name-error"
        /\ field_attr "name" "aria-invalid" page = VBool true
   else by_id "name-error" page = None
        /\ field_attr "name" "aria-errormessage" page = VUndefined
        /\ field_attr "name" "aria-invalid" page = VUndefined)
  /\ (if Boolean contentError
      then by_id "content-error" page
           = Some (Element "p" [("className", VString "form-validation-error");
                                ("role", VString "alert");
                                ("id", VString "content-error")]
                           [Expr contentError])
           /\ field_attr "content" "aria-errormessage" page
              = VString "content-error"
           /\ field_attr "content" "aria-invalid" page = VBool true
      else by_id "content-error" page = None
           /\ field_attr "content" "aria-errormessage" page = VUndefined
           /\ field_attr "content" "aria-invalid" page = VUndefined)
  /\ field_attr "name" "defaultValue" page = nameValue
  /\ field_attr "content" "defaultValue" page = contentValue.
Proof.
  unfold NewJokeRoute_form, by_id, field_attr, by_name, js_or.
  destruct (Boolean nameError), (Boolean contentError), (Boolean formError);
    cbn; repeat split.
Qed.

(** X20. On the login page, whatever the login type taken out of the
    action data: the ['login'] button is preselected exactly when the type
    is falsy (no action data yet, or an empty string) or is ['login'], the
    ['register'] button exactly when it is ['register']; the two are never
    preselected together, and after a rejection for any other type neither
    is. *)
Theorem login_radios
    (redirectTo loginType usernameValue passwordValue
     usernameError passwordError formError : value) :
  let page :=
    Login_page redirectTo loginType usernameValue passwordValue
               usernameError passwordError formError in
  (radio_checked "login" page = VBool true
   <-> Boolean loginType = false \/ loginType = VString "login")
  /\ (radio_checked "register" page = VBool true
      <-> loginType = VString "register")
  /\ ~ (radio_checked "login" page = VBool true
        /\ radio_checked "register" page = VBool true).
Proof.
  unfold Login_page, radio_checked, radio, js_or. cbn.
  assert (Hlogin : forall s, strict_equals loginType s = true
                             <-> loginType = VString s).
  { intros s. destruct loginType; simpl; split; try discriminate.
    - intros H. apply String.eqb_eq in H. now subst.
    - intros [= ->]. apply String.eqb_refl. }
  assert (Hreg : VBool (strict_equals loginType "register") = VBool true
                 <-> loginType = VString "register").
  { rewrite <- Hlogin. split; [now intros [= ->] | now intros ->]. }
  split; [| split].
  - destruct (Boolean loginType) eqn:Eb; simpl.
    + rewrite <- Hlogin. split.
      * intros [= ->]. now right.
      * intros [H | ->]; [discriminate H | reflexivity].
    + split; auto.
  - exact Hreg.
  - intros [Hl Hr]. apply Hreg in Hr. subst loginType. simpl in Hl.
    discriminate Hl.
Qed.

(** X22. On the login page, whatever the values: the alert paragraph of
    the username or of the password is on the page exactly when that
    field's error is truthy, and exactly then the field's
    [aria-errormessage] names it; [aria-invalid] is then true, and
    otherwise [false] on the username field but [undefined] on the
    password field.  Both fields are prefilled with the values taken out
    of the action data, the password field too. *)
Theorem login_alerts
    (redirectTo loginType usernameValue passwordValue
     usernameError passwordError formError : value) :
  let page :=
    Login_page redirectTo loginType usernameValue passwordValue
               usernameError passwordError formError in
  (if Boolean usernameError
   then by_id "username-error" page
        = Some (Element "p" [("className", VString "form-validation-error");
                             ("role", VString "alert");
                             ("id", VString "username-error")]
                        [Expr usernameError])
        /\ field_attr "username" "aria-errormessage" page
           = VString "username-error"
        /\ field_attr "username" "aria-invalid" page = VBool true
   else by_id "username-error" page = None
        /\ field_attr "username" "aria-errormessage" page = VUndefined
        /\ field_attr "username" "aria-invalid" page = VBool false)
  /\ (if Boolean passwordError
      then by_id "password-error" page
           = Some (Element "p" [("className", VString "form-validation-error");
                                ("role", VString "alert");
                                ("id", VString "password-error")]
                           [Expr passwordError])
           /\ field_attr "password" "aria-errormessage" page
              = VString "password-error"
           /\ field_attr "password" "aria-invalid" page = VBool true
      else by_id "password-error" page = None
           /\ field_attr "password" "aria-errormessage" page = VUndefined
           /\ field_attr "password" "aria-invalid" page = VUndefined)
  /\ field_attr "username" "defaultValue" page = usernameValue
  /\ field_attr "password" "defaultValue" page = passwordValue
  /\ field_attr "redirectTo" "value" page = redirectTo.
Proof.
  unfold Login_page, by_id, field_attr, by_name, js_or.
  destruct (Boolean usernameError), (Boolean passwordError),
    (Boolean formError); cbn; repeat split.
Qed.






Section Redisplay.

Context {World : Type}.
Variable oracle : forall c : call, World -> outcome (answer c) * World.
Variable request : Request.


End Redisplay.

(** What the login page says of its fields and of its two buttons. *)
Lemma login_page_fields
    (redirectTo usernameValue passwordValue
     usernameError passwordError formError : value) (loginType : string) :
  let page :=
    Login_page redirectTo (VString loginType) usernameValue passwordValue
               usernameError passwordError formError in
  field_attr "username" "defaultValue" page = usernameValue
  /\ field_attr "password" "defaultValue" page = passwordValue
  /\ (radio_checked "login" page = VBool true
      <-> loginType = "" \/ loginType = "login")
  /\ (radio_checked "register" page = VBool true <-> loginType = "register").
Proof.
  unfold Login_page, field_attr, by_name, radio_checked, radio, js_or.
  destruct (Boolean usernameError), (Boolean passwordError),
    (Boolean formError); cbn;
    (split; [reflexivity |]); (split; [reflexivity |]);
    destruct (String.eqb_spec loginType "") as [E0 | E0];
    destruct (String.eqb_spec loginType "login") as [El | El];
    destruct (String.eqb_spec loginType "register") as [Er | Er];
    cbn; repeat split; intros; auto; try discriminate; try congruence;
    try (destruct H; congruence).
Qed.

Lemma validateUsername_answers (username : value) :
  is_message (validateUsername username) \/ validateUsername username = VUndefined.
Proof.
  destruct (validateUsername_spec username) as [(_ & _ & _ & ?) | [_ ?]]; auto.
Qed.

Lemma validatePassword_answers (password : value) :
  is_message (validatePassword password) \/ validatePassword password = VUndefined.
Proof.
  destruct (validatePassword_spec password) as [(_ & _ & _ & ?) | [_ ?]]; auto.
Qed.

(** The login page drawn from the payload of a field rejection and from
    the payload of a form-level rejection. *)
Lemma invalid_auth_page
    (searchParams : list (string * string)) (lt u p : string) :
  Login searchParams (JSON_roundtrip (auth_invalid_payload lt u p))
  = Returned
      (Login_page
         (nullish (URLSearchParams_get "redirectTo" searchParams) VUndefined)
         (VString lt) (VString u) (VString p)
         (validateUsername (VString u)) (validatePassword (VString p))
         VUndefined).
Proof.
  unfold auth_invalid_payload.
  destruct (validateUsername_answers (VString u)) as [(m & -> & _) | ->];
  destruct (validatePassword_answers (VString p)) as [(k & -> & _) | ->];
    reflexivity.
Qed.

Lemma form_error_page
    (searchParams : list (string * string)) (lt u p message : string) :
  Login searchParams (JSON_roundtrip (auth_form_error lt u p message))
  = Returned
      (Login_page
         (nullish (URLSearchParams_get "redirectTo" searchParams) VUndefined)
         (VString lt) (VString u) (VString p)
         VUndefined VUndefined (VString message)).
Proof. reflexivity. Qed.

(** Keep the paths whose form is the one the environment answered, and
    identify their fields with the fields [Hfields] names. *)
Ltac this_form Hf :=
  repeat match goal with
         | H : ?o (CFormData _) _ = _ |- _ =>
             rewrite Hf in H; try discriminate H;
             injection H as <- <-
         end.

Ltac these_fields Hfields :=
  match goal with
  | Hv : auth_valid _ _ _ _ |- _ =>
      destruct (auth_fields_unique _ _ _ _ _ _ _ Hfields (proj1 Hv))
        as (? & ? & ?); subst
  | Hv : auth_invalid _ _ _ _ |- _ =>
      destruct (auth_fields_unique _ _ _ _ _ _ _ Hfields (proj1 Hv))
        as (? & ? & ?); subst
  end.

Section LoginRedisplay.

Context {World : Type}.
Variable oracle : forall c : call, World -> outcome (answer c) * World.
Variable request : Request.

(** X21. In any environment, when the login action answers a 400 to a
    form whose three fields are strings, the page drawn from that answer
    (the payload as [useActionData] gives it) has the username field and
    the password field prefilled with what was submitted, so the password
    travels back into the page, and preselects the button of the submitted
    login type: ['login'] for a type that is empty or ['login'],
    ['register'] for ['register'], none for any other. *)
Theorem login_rejection_redisplayed
    (searchParams : list (string * string))
    (form : FormData) (w w1 : World) (loginType username password : string)
    (r : Response) :
  oracle (CFormData request) w = (Returned form, w1) ->
  auth_fields form loginType username password ->
  result (run oracle (LoginRoute.action request) w) = Returned r ->
  status r = 400 ->
  exists page : node,
    Login searchParams (JSON_roundtrip (body r)) = Returned page
    /\ field_attr "username" "defaultValue" page = VString username
    /\ field_attr "password" "defaultValue" page = VString password
    /\ (radio_checked "login" page = VBool true
        <-> loginType = "" \/ loginType = "login")
    /\ (radio_checked "register" page = VBool true
        <-> loginType = "register").
Proof.
  intros Hf Hfields.
  destruct (login_action_path oracle request w); this_form Hf;
    try (exfalso; eapply fields_not_malformed; eassumption);
    these_fields Hfields;
    simpl; intros [= <-]; try discriminate; intros _;
    eexists;
    (split;
     [first [apply invalid_auth_page | apply form_error_page]
     | apply login_page_fields]).
Qed.

End LoginRedisplay.

Section Unauthorized.

Context {World : Type}.
Variable oracle : forall c : call, World -> outcome (answer c) * World.
Variable request : Request.

(** X19. When [getUserId] answers no user, what the loader throws is
    drawn by the catch boundary as the prompt with its link to [/login];
    for a caught response of any status other than 401 the boundary
    returns nothing at all ([undefined]). *)
Theorem unauthorized_prompt (w w' : World) :
  (oracle (CGetUserId request) w = (Returned None, w') ->
   exists caught : Response,
     result (run oracle (JokesNewRoute.loader request) w)
     = Raised (ThrownResponse caught)
     /\ In (Element "Link" [("to", VString "/login")] [Text "Login"])
           (descendants (CatchBoundary caught)))
  /\ (forall caught : Response,
        status caught <> 401 -> CatchBoundary caught = Expr VUndefined).
Proof.
  split.
  - intros H. unfold JokesNewRoute.loader, getUserId. cbn. rewrite H. cbn.
    eexists. split; [reflexivity |]. cbn. auto.
  - intros caught Hs. unfold CatchBoundary.
    destruct (Nat.eqb_spec (status caught) 401); [contradiction | reflexivity].
Qed.

End Unauthorized.

(** The components on the sample site. *)

Lemma optimistic_iff_accepted_witness :
  (exists shown : node,
      NewJokeRoute
        (Some [("name", VString "abc"); ("content", VString "1234567890")])
        VUndefined
      = Returned shown
      /\ attr "joke" shown
         = VObject [("name", VString "abc");
                    ("content", VString "1234567890")]
      /\ attr "isOwner" shown = VBool true
      /\ attr "canDelete" shown = VBool false)
  /\ NewJokeRoute
       (Some [("name", VString "ab"); ("content", VString "1234567890")])
       VUndefined
     = NewJokeRoute None VUndefined.
Proof.
  split.
  - destruct (optimistic_iff_accepted
                [("name", VString "abc"); ("content", VString "1234567890")]
                VUndefined _ eq_refl) as [Hshown _].
    destruct (Hshown "abc" "1234567890")
      as (_ & shown & Hrender & _ & Hjoke & Howner & Hdelete & _).
    + unfold joke_accepted. simpl. repeat split; lia.
    + exists shown. auto.
  - destruct (optimistic_iff_accepted
                [("name", VString "ab"); ("content", VString "1234567890")]
                VUndefined _ eq_refl) as (_ & Hform & _).
    apply Hform. right. exists "ab", "1234567890".
    unfold joke_invalid. simpl. repeat split. left. lia.
Defined.


Lemma login_rejection_redisplayed_witness :
  exists page : node,
    Login [("redirectTo", "/")]
          (JSON_roundtrip
             (body (LoginRoute.badRequest
                      (auth_form_error "login" "kody" "whatever"
                         "Username/Password combination is incorrect."))))
    = Returned page
    /\ field_attr "username" "defaultValue" page = VString "kody"
    /\ field_attr "password" "defaultValue" page = VString "whatever"
    /\ (radio_checked "login" page = VBool true
        <-> "login" = "" \/ "login" = "login")
    /\ (radio_checked "register" page = VBool true <-> "login" = "register").
Proof.
  apply (login_rejection_redisplayed site_oracle post_login
           [("redirectTo", "/")]
           (auth_form "login" "kody" "whatever")
           (site None (auth_form "login" "kody" "whatever"))
           (site None (auth_form "login" "kody" "whatever"))
           "login" "kody" "whatever").
  - reflexivity.
  - unfold auth_fields. repeat split.
  - reflexivity.
  - reflexivity.
Defined.

Lemma unauthorized_prompt_witness :
  (exists caught : Response,
      result (run site_oracle (JokesNewRoute.loader visit) (site None []))
      = Raised (ThrownResponse caught)
      /\ In (Element "Link" [("to", VString "/login")] [Text "Login"])
            (descendants (CatchBoundary caught)))
  /\ CatchBoundary (LoginRoute.badRequest (VObject [])) = Expr VUndefined.
Proof.
  destruct (unauthorized_prompt site_oracle visit (site None []) (site None []))
    as [Hprompt Hother].
  split.
  - apply Hprompt. reflexivity.
  - apply Hother. simpl. discriminate.
Defined.

Lemma login_radios_witness :
  radio_checked "register"
    (Login_page VUndefined (VString "register") (VString "bob")
                (VString "secret1") VUndefined VUndefined
                (VString "User with username bob already exists"))
  = VBool true.
Proof.
  destruct (login_radios VUndefined (VString "register") (VString "bob")
              (VString "secret1") VUndefined VUndefined
              (VString "User with username bob already exists"))
    as (_ & Hregister & _).
  apply Hregister. reflexivity.
Defined.
